(** * Keysight B1500 driver: command layer, registry and IV staircase sweep

    A shallow embedding of [KeysightB1500_base.py]: the mainframe class
    [KeysightB1500] (post-write error poll, module registry, mode and format
    queries, integration-time setup) and the sweep parameter
    [IVSweepMeasurement.get_raw].

    Python values are modelled as follows: [int] is [Z], [float] is a
    primitive binary64 [float], [str] is [string], a [dict] used as a map is
    a [gmap], an exception is a constructor of [exn], and a method that
    talks to the instrument is a state transformer over [World]. *)

From Stdlib Require Import ZArith List String Ascii Bool.
From Stdlib Require Import PrimFloat SpecFloat FloatOps.
From stdpp Require Import base option list gmap strings pretty.

Import ListNotations.
Set Warnings "-inexact-float".
Local Open Scope string_scope.
Local Open Scope Z_scope.

(** ** Python exceptions and results *)

Inductive exn : Type :=
  | ValueError (msg : string)
  | RuntimeError (msg : string)
  | Exception (msg : string)
  | KeyError (key : Z)
  | ZeroDivisionError
  | OverflowError
  | NotImplementedError (msg : string)
  (** raised by the collaborators outside this file: the VISA transport
      (I/O failure, timeout), the message builder, the response parser *)
  | VisaIOError (msg : string)
  | ForeignError (origin msg : string).

Inductive result (A : Type) : Type :=
  | Ok (a : A)
  | Raise (e : exn).
Arguments Ok {A} a.
Arguments Raise {A} e.

Definition is_ok {A} (r : result A) : bool :=
  match r with Ok _ => true | Raise _ => false end.

Definition rbind {A B} (r : result A) (k : A -> result B) : result B :=
  match r with Ok a => k a | Raise e => Raise e end.

(** [list(map(f, xs))]: the first element on which [f] raises decides. *)
Fixpoint rmap {A B} (f : A -> result B) (xs : list A) : result (list B) :=
  match xs with
  | [] => Ok []
  | x :: xs' =>
      rbind (f x) (fun y => rbind (rmap f xs') (fun ys => Ok (y :: ys)))
  end.

(** ** Python numbers *)

Module PyNum.

(** [float(z)] for an [int] [z]: rounding to nearest even; an integer
    beyond the binary64 range raises [OverflowError]. *)
Definition Z2F (z : Z) : float := SF2Prim (binary_normalize 53 1024 z 0 false).

Definition float_of_int (z : Z) : result float :=
  let f := Z2F z in
  if is_infinity f then Raise OverflowError else Ok f.

(** [a / b] on two [int]s: the correctly rounded quotient.  The quotient
    is taken with 64 extra bits and a sticky bit, so that the single
    rounding of [binary_normalize] is the rounding of the exact value; a
    zero quotient takes the sign of the operands. *)
Definition int_true_divide (a b : Z) : result float :=
  if b =? 0 then Raise ZeroDivisionError
  else
    let k := Z.log2_up (Z.abs b) + 64 in
    let n := Z.abs a * 2 ^ k in
    let q := n / Z.abs b in
    let sticky := if n mod Z.abs b =? 0 then 0 else 1 in
    let m := 2 * q + sticky in
    let neg := xorb (a <? 0) (b <? 0) in
    let f := SF2Prim (binary_normalize 53 1024 (if neg then - m else m)
                                       (- (k + 1)) neg) in
    if is_infinity f then Raise OverflowError else Ok f.

(** [x * n] and [n * x] for a [float] [x] and an [int] [n]. *)
Definition mul_float_int (x : float) (n : Z) : result float :=
  rbind (float_of_int n) (fun fn => Ok (PrimFloat.mul x fn)).

Definition mul_int_float (n : Z) (x : float) : result float :=
  rbind (float_of_int n) (fun fn => Ok (PrimFloat.mul fn x)).

(** [max(a, b)]: the first argument unless the second is greater. *)
Definition max (a b : float) : float :=
  if PrimFloat.ltb a b then b else a.

(** [int(x)] for a [float] [x]: truncation toward zero. *)
Definition int_of_float (x : float) : result Z :=
  match Prim2SF x with
  | S754_zero _ => Ok 0
  | S754_infinity _ => Raise OverflowError
  | S754_nan => Raise (ValueError "cannot convert float NaN to integer")
  | S754_finite s m e =>
      let mag := if 0 <=? e then Z.shiftl (Z.pos m) e
                 else Z.shiftr (Z.pos m) (- e) in
      Ok (if s then - mag else mag)
  end.

End PyNum.

(** ** Python strings *)

Module PyStr.

Definition newline : ascii := "010"%char.

(** [str.isspace] on the ASCII range. *)
Definition is_space (c : ascii) : bool :=
  let n := nat_of_ascii c in
  ((9 <=? n) && (n <=? 13) || (28 <=? n) && (n <=? 32))%nat.

Definition is_digit (c : ascii) : bool :=
  let n := nat_of_ascii c in ((48 <=? n) && (n <=? 57))%nat.

Definition digit_value (c : ascii) : Z := Z.of_nat (nat_of_ascii c) - 48.

Fixpoint lstrip (s : string) : string :=
  match s with
  | String c s' => if is_space c then lstrip s' else s
  | EmptyString => EmptyString
  end.

(** [rstrip]: a character is kept when something that is kept follows. *)
Fixpoint rstrip (s : string) : string :=
  match s with
  | EmptyString => EmptyString
  | String c s' =>
      match rstrip s' with
      | EmptyString => if is_space c then EmptyString else String c EmptyString
      | t => String c t
      end
  end.

Definition strip (s : string) : string := rstrip (lstrip s).

(** Decimal digits with single underscores between them. *)
Fixpoint digits (s : string) (acc : Z) (after_digit : bool) : option Z :=
  match s with
  | EmptyString => if after_digit then Some acc else None
  | String c s' =>
      if is_digit c then digits s' (10 * acc + digit_value c) true
      else if Ascii.eqb c "_" then
             if after_digit then digits s' acc false else None
      else None
  end.

Definition invalid_literal : exn :=
  ValueError "invalid literal for int() with base 10".

(** [int(s)] for a [str] [s]: surrounding whitespace, an optional sign,
    decimal digits. *)
Definition int (s : string) : result Z :=
  let of_digits (neg : bool) (t : string) :=
    match digits t 0 false with
    | Some n => Ok (if neg then - n else n)
    | None => Raise invalid_literal
    end in
  match strip s with
  | String "-" t => of_digits true t
  | String "+" t => of_digits false t
  | t => of_digits false t
  end.

(** [s.split(sep)] for a one-character separator. *)
Fixpoint split (sep : ascii) (s : string) : list string :=
  match s with
  | EmptyString => [EmptyString]
  | String c s' =>
      if Ascii.eqb c sep then EmptyString :: split sep s'
      else match split sep s' with
           | t :: ts => String c t :: ts
           | [] => [String c EmptyString]
           end
  end.

Fixpoint drop (n : nat) (s : string) : string :=
  match n, s with
  | S n', String _ s' => drop n' s'
  | _, _ => s
  end.

(** [t in s] *)
Fixpoint contains (t s : string) : bool :=
  String.prefix t s ||
  match s with
  | String _ s' => contains t s'
  | EmptyString => false
  end.

End PyStr.

(** ** The two tagged-field regular expressions

    [re.search('TAG(?P<a>.*?),(?P<b>.*?)(;|$)', response)] with [TAG] one of
    [MM], [FMT].  [.] is any character but a newline, [*?] takes as few
    characters as the rest of the pattern allows, [$] is the end of the
    string or the position before a final newline, and [search] tries the
    start positions from left to right. *)

Module Re.
Import PyStr.

(** [$] *)
Definition at_end (s : string) : bool :=
  match s with
  | EmptyString => true
  | String c EmptyString => Ascii.eqb c newline
  | _ => false
  end.

(** [(;|$)] *)
Definition at_terminator (s : string) : bool :=
  match s with
  | String ";" _ => true
  | _ => at_end s
  end.

(** [(?P<b>.*?)(;|$)] from [s], the group so far being [acc]. *)
Fixpoint second_group (s acc : string) : option string :=
  if at_terminator s then Some acc
  else match s with
       | String c s' =>
           if Ascii.eqb c newline then None
           else second_group s' (String.append acc (String c EmptyString))
       | EmptyString => None
       end.

(** [(?P<a>.*?),(?P<b>.*?)(;|$)] from [s]: at a comma the rest is tried,
    and on its failure the comma joins the first group. *)
Fixpoint first_group (s acc : string) : option (string * string) :=
  match s with
  | EmptyString => None
  | String c s' =>
      let extend :=
        if Ascii.eqb c newline then None
        else first_group s' (String.append acc (String c EmptyString)) in
      if Ascii.eqb c "," then
        match second_group s' EmptyString with
        | Some b => Some (acc, b)
        | None => extend
        end
      else extend
  end.

Definition match_here (tag s : string) : option (string * string) :=
  if String.prefix tag s
  then first_group (drop (String.length tag) s) EmptyString
  else None.

(** [re.search]: the groups of the leftmost match, if any. *)
Fixpoint search (tag s : string) : option (string * string) :=
  match match_here tag s with
  | Some g => Some g
  | None =>
      match s with
      | String _ s' => search tag s'
      | EmptyString => None
      end
  end.

End Re.

(** ** Python slices [l[k::3]] *)

(** [every_nth skip step l]: drop [skip] elements, then keep one element
    and drop [step - 1], repeatedly. *)
Fixpoint every_nth {A} (skip step : nat) (l : list A) : list A :=
  match l with
  | [] => []
  | x :: l' =>
      match skip with
      | O => x :: every_nth (step - 1) step l'
      | S k => every_nth k step l'
      end
  end.

Definition slice_from_step {A} (k step : nat) (l : list A) : list A :=
  every_nth k step l.

(** ** Data model *)

(** [constants.ModuleKind], the closed enumeration of module kinds. *)
Inductive ModuleKind : Type := SMU | CMU | WGFMU.

#[global] Instance ModuleKind_eq_dec : EqDecision ModuleKind.
Proof. solve_decision. Defined.

#[global] Instance ModuleKind_countable : Countable ModuleKind.
Proof.
  refine (inj_countable'
            (fun k => match k with SMU => 0%nat | CMU => 1%nat | WGFMU => 2%nat end)
            (fun n => match n with O => SMU | S O => CMU | _ => WGFMU end) _).
  intros []; reflexivity.
Defined.

(** A module object, with the attributes this file reads.  The module
    classes themselves ([B1517A], ...) live outside this file. *)
Record B1500Module : Type := mkModule {
  short_name : string;
  full_name : string;
  slot_nr : Z;
  channels : list Z;
  MODULE_KIND : ModuleKind;
  setup_fnc_already_run : bool;
  _average_coefficient : Z;
  power_line_frequency : Z
}.

(** [_FMTResponse]: four parallel sequences, one entry per reading. *)
Record FMTResponse : Type := mkFMTResponse {
  value : list float;
  status : list string;
  channel : list Z;
  type : list string
}.

(** The dictionary returned by [get_measurement_mode]. *)
Record MeasurementMode : Type := mkMeasurementMode {
  mm_mode : Z;
  mm_channels : list Z
}.

(** The dictionary returned by [get_response_format_and_mode]. *)
Record FormatAndMode : Type := mkFormatAndMode {
  fmt_format : Z;
  fmt_mode : Z
}.

(** What crosses the VISA session, in order.  A query is recorded with the
    timeout in force when it is sent. *)
Inductive Event : Type :=
  | EvWrite (cmd : string)
  | EvAsk (cmd : string) (timeout : float).

Definition is_write (e : Event) : bool :=
  match e with EvWrite _ => true | EvAsk _ _ => false end.

(** ** Collaborators

    The parts of the package that this file calls and does not define: the
    VISA transport of [VisaInstrument], the submodule table of the
    instrument base class, the [MessageBuilder], the enumerations of
    [constants] and the response parser of [KeysightB1500_module]. *)
Record Collaborators : Type := mkCollaborators {
  (** the instrument behind the session *)
  Dev : Type;
  (** [VisaInstrument.write(cmd)] *)
  visa_write : string -> Dev -> result unit * Dev;
  (** [VisaInstrument.ask(cmd)] under the timeout in force *)
  visa_ask : string -> float -> Dev -> result string * Dev;
  (** the state of the instrument base class and its [add_submodule] *)
  Base : Type;
  add_submodule : string -> B1500Module -> Base -> result Base;
  (** [MessageBuilder().errx_query(mode).message] *)
  errx_query : option Z -> string;
  (** [MessageBuilder().lrn_query(LRN.Type.TM_AV_CM_FMT_MM_SETTINGS).message] *)
  lrn_query_settings : string;
  (** [MessageBuilder().fmt(format, mode).message] *)
  fmt : Z -> Z -> string;
  (** [MessageBuilder().xe().message] *)
  xe : string;
  (** [MessageBuilder().mm(mode, channels).message] *)
  mm : Z -> option (list Z) -> result string;
  (** [MessageBuilder().ait(adc_type, mode, coeff).message] *)
  ait : Z -> Z -> option Z -> result string;
  (** membership in [constants.MM.Mode], [constants.FMT.Format],
      [constants.FMT.Mode] *)
  MM_Mode : Z -> bool;
  FMT_Format : Z -> bool;
  FMT_Mode : Z -> bool;
  (** [fmt_response_base_parser(raw_data)] *)
  fmt_response_base_parser : string -> result FMTResponse;
  (** The parameters [iv_sweep.step_delay] and [iv_sweep.sweep_steps] of
      the module class: reading one of them sends a query for the sweep
      settings of the instrument and decodes the answer. *)
  step_delay_query : string;
  decode_step_delay : string -> result float;
  sweep_steps_query : string;
  decode_sweep_steps : string -> result Z
}.

(** [Enum(n)]: the member with value [n], or [ValueError]. *)
Definition enum_of (member : Z -> bool) (n : Z) : result Z :=
  if member n then Ok n else Raise (ValueError "not a valid enumeration value").

Definition dquote : ascii := "034"%char.

(** The literal [+0,"No Error."] of [write]. *)
Definition no_error : string :=
  String.append "+0," (String dquote (String.append "No Error." (String dquote EmptyString))).

Section Driver.

Context (C : Collaborators).

(** The mainframe object together with the session it drives and the
    attributes of its sweep parameter. *)
Record World : Type := mkWorld {
  dev : Dev C;
  log : list Event;
  timeout : float;
  base : Base C;
  by_slot : gmap Z B1500Module;
  by_channel : gmap Z B1500Module;
  by_kind : gmap ModuleKind (list B1500Module);
  (** [None] stands for the placeholder [_FMTResponse(None, None, None, None)] *)
  param1 : option FMTResponse;
  param2 : option FMTResponse;
  source_voltage : option FMTResponse;
  shapes : list (list nat);
  setpoints : list (list (list float))
  }.

Definition set_dev (d : Dev C) (e : Event) (w : World) : World :=
  mkWorld d (app (log w) [e]) (timeout w) (base w) (by_slot w) (by_channel w)
          (by_kind w) (param1 w) (param2 w) (source_voltage w) (shapes w)
          (setpoints w).

Definition set_timeout (t : float) (w : World) : World :=
  mkWorld (dev w) (log w) t (base w) (by_slot w) (by_channel w)
          (by_kind w) (param1 w) (param2 w) (source_voltage w) (shapes w)
          (setpoints w).

Definition set_registry (b : Base C) (slots chans : gmap Z B1500Module)
           (kinds : gmap ModuleKind (list B1500Module)) (w : World) : World :=
  mkWorld (dev w) (log w) (timeout w) b slots chans kinds
          (param1 w) (param2 w) (source_voltage w) (shapes w) (setpoints w).

Definition set_sweep_data (p1 p2 sv : FMTResponse) (w : World) : World :=
  mkWorld (dev w) (log w) (timeout w) (base w) (by_slot w) (by_channel w)
          (by_kind w) (Some p1) (Some p2) (Some sv)
          [[length (value sv)]; [length (value sv)]]
          [[value sv]; [value sv]].

(** *** Methods as state transformers *)

Definition M (A : Type) : Type := World -> result A * World.

Definition ret {A} (a : A) : M A := fun w => (Ok a, w).
Definition raise {A} (e : exn) : M A := fun w => (Raise e, w).
Definition lift {A} (r : result A) : M A := fun w => (r, w).

Definition bind {A B} (c : M A) (k : A -> M B) : M B :=
  fun w =>
    match c w with
    | (Ok a, w') => k a w'
    | (Raise e, w') => (Raise e, w')
    end.

Notation "'let*' x ':=' c 'in' k" := (bind c (fun x => k))
  (at level 10, x pattern, c at level 100, k at level 200).

(** [try: body finally: handler].  The handler always runs; what it raises
    replaces the outcome of the body, otherwise that outcome stands. *)
Definition try_finally {A} (body : M A) (handler : M unit) : M A :=
  fun w =>
    let '(r, w1) := body w in
    match handler w1 with
    | (Ok _, w2) => (r, w2)
    | (Raise e, w2) => (Raise e, w2)
    end.

(** [with self.root_instrument.timeout.set_to(t): body].  The previous
    timeout is put back on every exit from the body.  The timeout
    parameter itself belongs to the instrument base class; setting it
    is taken to succeed. *)
Definition with_timeout {A} (t : float) (body : M A) : M A :=
  fun w =>
    let original := timeout w in
    let '(r, w1) := body (set_timeout t w) in
    (r, set_timeout original w1).

Definition super_write (cmd : string) : M unit :=
  fun w =>
    let '(r, d) := visa_write C cmd (dev w) in
    (r, set_dev d (EvWrite cmd) w).

Definition ask (cmd : string) : M string :=
  fun w =>
    let '(r, d) := visa_ask C cmd (timeout w) (dev w) in
    (r, set_dev d (EvAsk cmd (timeout w)) w).

(** [KeysightB1500.error_message] *)
Definition error_message (mode : option Z) : M string :=
  let msg := errx_query C mode in
  let* response := ask msg in
  ret response.

(** [KeysightB1500.write] *)
Definition write (cmd : string) : M unit :=
  let* _ := super_write cmd in
  let* error_message := error_message None in
  if negb (String.eqb error_message no_error)
  then raise (RuntimeError
                (String.append "While setting this parameter received error: "
                               error_message))
  else ret tt.

(** [KeysightB1500.add_module] *)
Definition add_module (name : string) (module : B1500Module) : M unit :=
  fun w =>
    match add_submodule C name module (base w) with
    | Raise e => (Raise e, w)
    | Ok b =>
        let kinds :=
          <[MODULE_KIND module :=
              app (default [] (by_kind w !! MODULE_KIND module)) [module]]>
            (by_kind w) in
        let slots := <[slot_nr module := module]> (by_slot w) in
        let chans :=
          foldl (fun m ch => <[ch := module]> m) (by_channel w)
                (channels module) in
        (Ok tt, set_registry b slots chans kinds w)
    end.

(** [self.by_channel[ch]] *)
Definition by_channel_getitem (ch : Z) : M B1500Module :=
  fun w =>
    match by_channel w !! ch with
    | Some m => (Ok m, w)
    | None => (Raise (KeyError ch), w)
    end.

(** [KeysightB1500._setup_integration_time], for a coefficient that is
    absent, an [int] or a [float]. *)
Inductive Coeff : Type :=
  | CoeffInt (n : Z)
  | CoeffFloat (x : float).

Definition int_of_coeff (c : Coeff) : result Z :=
  match c with
  | CoeffInt n => Ok n
  | CoeffFloat x => PyNum.int_of_float x
  end.

Definition _setup_integration_time (adc_type mode : Z) (coeff : option Coeff)
  : M unit :=
  let* coeff :=
    match coeff with
    | Some c => let* n := lift (int_of_coeff c) in ret (Some n)
    | None => ret None
    end in
  let* message := lift (ait C adc_type mode coeff) in
  write message.

(** [KeysightB1500.set_measurement_mode] *)
Definition set_measurement_mode (mode : Z) (channels : option (list Z))
  : M unit :=
  let* msg := lift (mm C mode channels) in
  write msg.

(** Lines 374-383 of [get_measurement_mode]: from the response to the
    dictionary. *)
Definition decode_measurement_mode (response : string) : result MeasurementMode :=
  match Re.search "MM" response with
  | None => Raise (ValueError "Measurement Mode (MM) not found.")
  | Some (mode, channels) =>
      rbind (PyStr.int mode) (fun n =>
      rbind (enum_of (MM_Mode C) n) (fun mode =>
      rbind (rmap PyStr.int (PyStr.split "," channels)) (fun channels =>
      Ok (mkMeasurementMode mode channels))))
  end.

(** [KeysightB1500.get_measurement_mode] *)
Definition get_measurement_mode : M MeasurementMode :=
  let* response := ask (lrn_query_settings C) in
  lift (decode_measurement_mode response).

(** Lines 393-405 of [get_response_format_and_mode]. *)
Definition decode_format_and_mode (response : string) : result FormatAndMode :=
  match Re.search "FMT" response with
  | None => Raise (ValueError "Measurement Mode (FMT) not found.")
  | Some (format, mode) =>
      rbind (PyStr.int format) (fun n =>
      rbind (enum_of (FMT_Format C) n) (fun format =>
      rbind (PyStr.int mode) (fun n =>
      rbind (enum_of (FMT_Mode C) n) (fun mode =>
      Ok (mkFormatAndMode format mode)))))
  end.

(** [KeysightB1500.get_response_format_and_mode] *)
Definition get_response_format_and_mode : M FormatAndMode :=
  let* response := ask (lrn_query_settings C) in
  lift (decode_format_and_mode response).

(** *** [IVSweepMeasurement.get_raw] *)

(** [self._fudge] *)
Definition _fudge : float := 1.5%float.

(** [smu.iv_sweep.step_delay()] and [smu.iv_sweep.sweep_steps()]: one
    query each, then the decoding of the answer. *)
Definition iv_sweep_step_delay : M float :=
  let* response := ask (step_delay_query C) in
  lift (decode_step_delay C response).

Definition iv_sweep_sweep_steps : M Z :=
  let* response := ask (sweep_steps_query C) in
  lift (decode_sweep_steps C response).

(** Lines 474-482: the time one step takes. *)
Definition calculated_time (smu : B1500Module) (delay_time : float) : result float :=
  if _average_coefficient smu <? 0 then
    let nplc := 128 * Z.abs (_average_coefficient smu) in
    rbind (PyNum.int_true_divide 1 (power_line_frequency smu))
          (fun power_line_time_period =>
             PyNum.mul_int_float (2 * nplc) power_line_time_period)
  else PyNum.mul_int_float (_average_coefficient smu) delay_time.

(** Lines 484-485: the timeout for the sweep. *)
Definition new_timeout (delay_time calculated_time : float) (num_steps : Z)
  : result float :=
  rbind (PyNum.mul_float_int (PyNum.max delay_time calculated_time) num_steps)
        (fun estimated_timeout => Ok (PrimFloat.mul estimated_timeout _fudge)).

(** Lines 460-471: the two checks, giving the sweep-source module. *)
Definition sweep_source : M B1500Module :=
  let* measurement_mode := get_measurement_mode in
  match mm_channels measurement_mode with
  | [first; _] =>
      let* smu := by_channel_getitem first in
      if negb (setup_fnc_already_run smu)
      then raise (Exception
                    (String.append "Sweep setup has not yet been run successfully on "
                                   (full_name smu)))
      else ret smu
  | _ => raise (ValueError
                  "Two measurement channels are needed, one for gate current and other for source drain current.")
  end.

(** Lines 491-494: the body of the [try]. *)
Definition execute (t : float) : M FMTResponse :=
  let* _ := write (fmt C 1 1) in
  with_timeout t
    (let* raw_data := ask (xe C) in
     let* parsed_data := lift (fmt_response_base_parser C raw_data) in
     ret parsed_data).

(** Lines 496-497: the [finally] clause. *)
Definition restore (format_and_mode : FormatAndMode) : M unit :=
  write (fmt C (fmt_format format_and_mode) (fmt_mode format_and_mode)).

(** The [_FMTResponse] built from [parsed_data[i][k::3]] for [i] in
    [range(0, 4)]. *)
Definition deinterleave (k : nat) (parsed_data : FMTResponse) : FMTResponse :=
  mkFMTResponse (slice_from_step k 3 (value parsed_data))
                (slice_from_step k 3 (status parsed_data))
                (slice_from_step k 3 (channel parsed_data))
                (slice_from_step k 3 (type parsed_data)).

(** Lines 499-509: the three series, the shapes and the setpoints. *)
Definition store (parsed_data : FMTResponse) : M (list float * list float) :=
  fun w =>
    let p1 := deinterleave 0 parsed_data in
    let p2 := deinterleave 1 parsed_data in
    let sv := deinterleave 2 parsed_data in
    (Ok (value p1, value p2), set_sweep_data p1 p2 sv w).

Definition get_raw : M (list float * list float) :=
  let* smu := sweep_source in
  let* delay_time := iv_sweep_step_delay in
  let* calculated_time := lift (calculated_time smu delay_time) in
  let* num_steps := iv_sweep_sweep_steps in
  let* new_timeout := lift (new_timeout delay_time calculated_time num_steps) in
  let* format_and_mode := get_response_format_and_mode in
  let* parsed_data :=
    try_finally (execute new_timeout) (restore format_and_mode) in
  store parsed_data.

End Driver.

Arguments mkWorld {C}.
Arguments dev {C}.
Arguments log {C}.
Arguments timeout {C}.
Arguments base {C}.
Arguments by_slot {C}.
Arguments by_channel {C}.
Arguments by_kind {C}.
Arguments param1 {C}.
Arguments param2 {C}.
Arguments source_voltage {C}.
Arguments shapes {C}.
Arguments setpoints {C}.

(** ** A test bench

    One concrete choice of collaborators, on which the methods can be run:
    a simulated instrument that answers the four queries of this file, and
    a message builder that prints the B1500 mnemonics. *)

Module Bench.

Record Instrument : Type := mkInstrument {
  (** the answer to the settings query *)
  settings : string;
  (** the pending error messages, oldest first *)
  error_queue : list string;
  (** the outcome of the sweep-execute query *)
  sweep_data : result string;
  (** the answer to the query for the sweep settings: the step delay in
      milliseconds and the number of steps *)
  sweep_settings : string
  }.

Definition bench_write (cmd : string) (d : Instrument) : result unit * Instrument :=
  (Ok tt, d).

Definition bench_ask (cmd : string) (t : float) (d : Instrument)
  : result string * Instrument :=
  if String.eqb cmd "ERRX?" then
    match error_queue d with
    | e :: q => (Ok e, mkInstrument (settings d) q (sweep_data d) (sweep_settings d))
    | [] => (Ok no_error, d)
    end
  else if String.eqb cmd "*LRN? 31" then (Ok (settings d), d)
  else if String.eqb cmd "*LRN? 33" then (Ok (sweep_settings d), d)
  else if String.eqb cmd "XE" then (sweep_data d, d)
  else (Raise (VisaIOError "timeout"), d).

(** The submodule table: the names in use; a name is added once. *)
Definition bench_add_submodule (name : string) (m : B1500Module)
           (names : list string) : result (list string) :=
  if existsb (String.eqb name) names
  then Raise (ForeignError "add_submodule" "Duplicate submodule name")
  else Ok (name :: names).

Definition show (n : Z) : string := pretty n.

Fixpoint csv (ns : list Z) : string :=
  match ns with
  | [] => EmptyString
  | [n] => show n
  | n :: ns' => String.append (show n) (String.append "," (csv ns'))
  end.

Definition bench_fmt (format mode : Z) : string :=
  String.append "FMT " (String.append (show format) (String.append "," (show mode))).

Definition bench_mm (mode : Z) (channels : option (list Z)) : result string :=
  match channels with
  | None => Ok (String.append "MM " (show mode))
  | Some chs =>
      Ok (String.append "MM " (String.append (show mode) (String.append "," (csv chs))))
  end.

(** The integration-time command: the mnemonic and its arguments as they
    are given. *)
Definition bench_ait (adc_type mode : Z) (coeff : option Z) : result string :=
  let head := String.append "AIT " (String.append (show adc_type)
                                      (String.append "," (show mode))) in
  match coeff with
  | None => Ok head
  | Some n => Ok (String.append head (String.append "," (show n)))
  end.

(** The two fields of the sweep settings of the bench. *)
Definition bench_step_delay (r : string) : result float :=
  match PyStr.split "," r with
  | ms :: _ => rbind (PyStr.int ms) (fun n => PyNum.int_true_divide n 1000)
  | [] => Raise (ForeignError "step_delay" "no sweep settings")
  end.

Definition bench_sweep_steps (r : string) : result Z :=
  match PyStr.split "," r with
  | _ :: steps :: _ => PyStr.int steps
  | _ => Raise (ForeignError "sweep_steps" "no sweep settings")
  end.

(** A reading is written as a status letter, a channel letter, a type
    letter and an integer: [NAI5] is the value 5 on channel 1. *)
Definition bench_reading (s : string) : result (float * string * Z * string) :=
  match s with
  | String st (String ch (String ty rest)) =>
      rbind (PyStr.int rest) (fun n =>
      Ok (PyNum.Z2F n, String st EmptyString,
          Z.of_nat (nat_of_ascii ch) - 64, String ty EmptyString))
  | _ => Raise (ForeignError "fmt_response_base_parser" "short reading")
  end.

Definition bench_parser (raw_data : string) : result FMTResponse :=
  rbind (rmap bench_reading (PyStr.split "," raw_data)) (fun rs =>
  Ok (mkFMTResponse (map (fun r => r.1.1.1) rs) (map (fun r => r.1.1.2) rs)
                    (map (fun r => r.1.2) rs) (map (fun r => r.2) rs))).

Definition member (vs : list Z) (n : Z) : bool := existsb (Z.eqb n) vs.

Definition bench : Collaborators :=
  mkCollaborators
    Instrument bench_write bench_ask
    (list string) bench_add_submodule
    (fun _ => "ERRX?") "*LRN? 31" bench_fmt "XE" bench_mm bench_ait
    (member [1; 2; 3; 4; 5; 9; 10; 13; 14; 15; 16; 17; 18; 19; 20; 22; 23; 26; 27; 28])
    (member [1; 2; 3; 4; 5; 11; 12; 13; 14; 15; 21; 22; 25])
    (member [0; 1; 2; 3; 4; 5; 6; 7; 8; 9; 10])
    bench_parser
    "*LRN? 33" bench_step_delay "*LRN? 33" bench_sweep_steps.

(** An instrument set for a sweep of 100 steps with a step delay of 10
    milliseconds. *)
Definition instrument (settings : string) (errors : list string)
           (data : result string) : Instrument :=
  mkInstrument settings errors data "10,100".

(** A source-measure unit in slot [n], on channel [n]. *)
Definition smu (n coefficient : Z) (ready : bool) : B1500Module :=
  mkModule (String.append "smu" (show n)) (String.append "B1500_smu" (show n))
           n [n] SMU ready coefficient 50.

Definition empty_world (d : Instrument) : World bench :=
  mkWorld (C := bench) d [] 5%float [] ∅ ∅ ∅ None None None [[1%nat]; [1%nat]] [].

(** The mainframe with the modules [ms] registered in order. *)
Definition world_with (ms : list B1500Module) (d : Instrument) : World bench :=
  foldl (fun w m => (add_module bench (short_name m) m w).2) (empty_world d) ms.

(** The text [0,"No Error."], without the sign: it is not the literal of
    [write]. *)
Definition plain_no_error : string :=
  String.append "0," (String dquote (String.append "No Error." (String dquote EmptyString))).

(** Two source-measure units: the first one set up for a sweep with NPLC
    averaging, the second one not set up. *)
Definition sweep_modules : list B1500Module :=
  [smu 1 (-2) true; smu 2 4 false].

(** The mainframe with these two modules in front of an instrument that
    answers the settings query with [settings] and the sweep-execute query
    with [data]. *)
Definition lab (settings : string) (data : result string) : World bench :=
  world_with sweep_modules (instrument settings [] data).

Definition nine_readings : string := "NAI1,NBI2,NAV3,NAI4,NBI5,NAV6,NAI7,NBI8,NAV9".
Definition eight_readings : string := "NAI1,NBI2,NAV3,NAI4,NBI5,NAV6,NAI7,NBI8".

(** A capacitance unit that claims slot 1 and channel 1. *)
Definition cmu1 : B1500Module :=
  mkModule "cmu1" "B1500_cmu1" 1 [1] CMU false 1 50.

End Bench.

(** ** The other methods of the mainframe *)

(** The collaborators of the methods below: further commands of the
    [MessageBuilder], the parser of the module query, the constructors of
    the three module classes and two members of [constants].  A
    constructor receives the mainframe as [parent] and may talk to the
    instrument through it. *)
Record Builders (C : Collaborators) : Type := mkBuilders {
  (** [MessageBuilder().unt_query(mode=UNT.Mode.MODULE_INFO_ONLY).message] *)
  unt_query_module_info : string;
  (** [parse_module_query_response(r)]: the slots with their model, in the
      order of the dictionary *)
  parse_module_query_response : string -> result (list (Z * string));
  (** [B1517A(slot_nr, parent, name)], [B1520A(...)], [B1530A(...)] *)
  new_B1517A : Z -> M C B1500Module;
  new_B1520A : Z -> M C B1500Module;
  new_B1530A : Z -> M C B1500Module;
  (** [MessageBuilder().cn(channels).message] and [.cl(channels).message] *)
  cn : option (list Z) -> result string;
  cl : option (list Z) -> result string;
  (** [MessageBuilder().az(do_autozero).message] *)
  az : bool -> result string;
  (** [MessageBuilder().cal_query(slot).message] *)
  cal_query : option Z -> result string;
  (** [MessageBuilder().err_query().message] *)
  err_query : result string;
  (** [MessageBuilder().tsr(chnum).message] *)
  tsr : option Z -> result string;
  (** [MessageBuilder().fl(enable_filter, channels).message] *)
  fl : bool -> option (list Z) -> result string;
  (** membership in [constants.CALResponse] *)
  CALResponse : Z -> bool;
  (** [constants.AIT.Type.HIGH_SPEED], [constants.AIT.Type.HIGH_RESOLUTION],
      [constants.AIT.Mode.NPLC], [constants.AIT.Mode.MANUAL] *)
  AIT_Type_HIGH_SPEED : Z;
  AIT_Type_HIGH_RESOLUTION : Z;
  AIT_Mode_NPLC : Z;
  AIT_Mode_MANUAL : Z
}.

Arguments unt_query_module_info {C}.
Arguments parse_module_query_response {C}.
Arguments new_B1517A {C}.
Arguments new_B1520A {C}.
Arguments new_B1530A {C}.
Arguments cn {C}.
Arguments cl {C}.
Arguments az {C}.
Arguments cal_query {C}.
Arguments err_query {C}.
Arguments tsr {C}.
Arguments fl {C}.
Arguments CALResponse {C}.
Arguments AIT_Type_HIGH_SPEED {C}.
Arguments AIT_Type_HIGH_RESOLUTION {C}.
Arguments AIT_Mode_NPLC {C}.
Arguments AIT_Mode_MANUAL {C}.

Section Mainframe.

Context (C : Collaborators) (B : Builders C).

Notation "'let*' x ':=' c 'in' k" := (bind C c (fun x => k))
  (at level 10, x pattern, c at level 100, k at level 200).

(** [KeysightB1500.calibration_time_out] *)
Definition calibration_time_out : float := 60%float.

(** [KeysightB1500.reset] *)
Definition reset : M C unit := write C "*RST".

(** [KeysightB1500.get_status] *)
Definition get_status : M C Z :=
  let* response := ask C "*STB?" in
  lift C (PyStr.int response).

(** [KeysightB1500.from_model_name], with [name] left at [None]. *)
Definition from_model_name (model : string) (slot_nr : Z) : M C B1500Module :=
  if String.eqb model "B1517A" then new_B1517A B slot_nr
  else if String.eqb model "B1520A" then new_B1520A B slot_nr
  else if String.eqb model "B1530A" then new_B1530A B slot_nr
  else raise C (NotImplementedError "Module type not yet supported.").

(** The loop of [_find_modules] over [slot_population.items()]. *)
Fixpoint add_population (slot_population : list (Z * string)) : M C unit :=
  match slot_population with
  | [] => ret C tt
  | (slot_nr, model) :: rest =>
      let* module := from_model_name model slot_nr in
      let* _ := add_module C (short_name module) module in
      add_population rest
  end.

(** [KeysightB1500._find_modules] *)
Definition _find_modules : M C unit :=
  let* r := ask C (unt_query_module_info B) in
  let* slot_population := lift C (parse_module_query_response B r) in
  add_population slot_population.

(** [KeysightB1500.enable_channels] *)
Definition enable_channels (channels : option (list Z)) : M C unit :=
  let* msg := lift C (cn B channels) in
  write C msg.

(** [KeysightB1500.disable_channels] *)
Definition disable_channels (channels : option (list Z)) : M C unit :=
  let* msg := lift C (cl B channels) in
  write C msg.

(** [KeysightB1500.use_nplc_for_high_speed_adc] *)
Definition use_nplc_for_high_speed_adc (n : option Coeff) : M C unit :=
  _setup_integration_time C (AIT_Type_HIGH_SPEED B) (AIT_Mode_NPLC B) n.

(** [KeysightB1500.use_nplc_for_high_resolution_adc] *)
Definition use_nplc_for_high_resolution_adc (n : option Coeff) : M C unit :=
  _setup_integration_time C (AIT_Type_HIGH_RESOLUTION B) (AIT_Mode_NPLC B) n.

(** [KeysightB1500.use_manual_mode_for_high_speed_adc] *)
Definition use_manual_mode_for_high_speed_adc (n : option Coeff) : M C unit :=
  _setup_integration_time C (AIT_Type_HIGH_SPEED B) (AIT_Mode_MANUAL B) n.

(** [KeysightB1500._set_autozero] *)
Definition _set_autozero (do_autozero : bool) : M C unit :=
  let* msg := lift C (az B do_autozero) in
  write C msg.

(** [KeysightB1500.self_calibration] *)
Definition self_calibration (slot : option Z) : M C Z :=
  let* msg := lift C (cal_query B slot) in
  let* response := with_timeout C calibration_time_out (ask C msg) in
  let* n := lift C (PyStr.int response) in
  lift C (enum_of (CALResponse B) n).

(** [KeysightB1500.clear_buffer_of_error_message] *)
Definition clear_buffer_of_error_message : M C unit :=
  let* msg := lift C (err_query B) in
  write C msg.

(** [KeysightB1500.clear_timer_count] *)
Definition clear_timer_count (chnum : option Z) : M C unit :=
  let* msg := lift C (tsr B chnum) in
  write C msg.

(** [KeysightB1500.enable_smu_filters] *)
Definition enable_smu_filters (enable_filter : bool) (channels : option (list Z))
  : M C unit :=
  let* msg := lift C (fl B enable_filter channels) in
  write C msg.

End Mainframe.

(** ** Vocabulary for the other properties *)

Section MoreVocabulary.

Context (C : Collaborators).
Implicit Types (w : World C).

(** The attributes of the mainframe other than the session are the same. *)
Definition same_instrument w w' : Prop :=
  timeout w' = timeout w /\ base w' = base w /\ by_slot w' = by_slot w /\
  by_channel w' = by_channel w /\ by_kind w' = by_kind w.

(** The attributes written by a sweep are the same. *)
Definition same_sweep_data w w' : Prop :=
  param1 w' = param1 w /\ param2 w' = param2 w /\
  source_voltage w' = source_voltage w /\
  shapes w' = shapes w /\ setpoints w' = setpoints w.

(** The last module of [ms] that owns the channel [ch], if any. *)
Definition last_owner (ch : Z) (ms : list B1500Module) : option B1500Module :=
  last (filter (fun m => bool_decide (ch ∈ channels m)) ms).

(** The world after the modules [ms] have been registered in order, all of
    them accepted. *)
Fixpoint registered (ms : list B1500Module) w : option (World C) :=
  match ms with
  | [] => Some w
  | m :: ms' =>
      match add_module C (short_name m) m w with
      | (Ok _, w') => registered ms' w'
      | (Raise _, _) => None
      end
  end.

End MoreVocabulary.

Arguments same_instrument {C}.
Arguments same_sweep_data {C}.
Arguments registered {C}.

(** [a0 b0 c0 a1 b1 c1 ...]: the inverse of the three slices with stride 3. *)
Fixpoint interleave3 {A} (a b c : list A) : list A :=
  match a with
  | [] => []
  | x :: a' =>
      x :: match b with
           | [] => []
           | y :: b' =>
               y :: match c with
                    | [] => []
                    | z :: c' => z :: interleave3 a' b' c'
                    end
           end
  end.

(** No character of [s] is one of [cs]. *)
Fixpoint free_of (cs : list ascii) (s : string) : bool :=
  match s with
  | EmptyString => true
  | String c s' => negb (existsb (Ascii.eqb c) cs) && free_of cs s'
  end.

(** [tag] matches at some position of [pre ++ s] that lies inside [pre]. *)
Fixpoint tag_starts_within (tag pre s : string) : bool :=
  match pre with
  | EmptyString => false
  | String c pre' =>
      String.prefix tag (String c (String.append pre' s))
      || tag_starts_within tag pre' s
  end.

(** ** [qcodes/widgets/display.py] *)

Module Display.

(** What is handed to [display]. *)
Inductive Displayed : Type :=
  | Javascript (data : string)
  | HTML (data : string).

(** [str.lower] on the ASCII range. *)
Definition lower_char (c : ascii) : ascii :=
  let n := nat_of_ascii c in
  if ((65 <=? n) && (n <=? 90))%nat then ascii_of_nat (n + 32) else c.

Fixpoint lower (s : string) : string :=
  match s with
  | EmptyString => EmptyString
  | String c s' => String (lower_char c) (lower s')
  end.

(** [s.rfind(c)] for a character [c]: the highest index of [c], or -1.
    [rfind_from c s i last] scans [s], whose first character has index
    [i], knowing the highest index [last] found so far. *)
Fixpoint rfind_from (c : ascii) (s : string) (i last : Z) : Z :=
  match s with
  | EmptyString => last
  | String a s' => rfind_from c s' (i + 1) (if Ascii.eqb a c then i else last)
  end.

Definition rfind (c : ascii) (s : string) : Z := rfind_from c s 0 (-1).

(** The loop of [genericpath._splitext]: one of the first [n] characters of
    [s] is not a dot. *)
Fixpoint some_non_dot (s : string) (n : nat) : bool :=
  match n, s with
  | S n', String a s' => negb (Ascii.eqb a ".") || some_non_dot s' n'
  | _, _ => false
  end.

(** [os.path.splitext(p)] of [posixpath]: the extension starts at the last
    dot, if that dot comes after the last slash and after a character of
    the file name that is not a dot. *)
Definition splitext (p : string) : string * string :=
  let sepIndex := rfind "/" p in
  let dotIndex := rfind "." p in
  if sepIndex <? dotIndex then
    if some_non_dot (PyStr.drop (Z.to_nat (sepIndex + 1)) p)
                    (Z.to_nat (dotIndex - (sepIndex + 1)))
    then (String.substring 0 (Z.to_nat dotIndex) p, PyStr.drop (Z.to_nat dotIndex) p)
    else (p, EmptyString)
  else (p, EmptyString).

(** [display_auto(qcodes_path, file_type)].  [resource_string] stands for
    [resource_string('qcodes', qcodes_path).decode('utf-8')]; the result is
    the object passed to [display]. *)
Definition display_auto (resource_string : string -> result string)
           (qcodes_path : string) (file_type : option string) : result Displayed :=
  rbind (resource_string qcodes_path) (fun contents =>
  let ext :=
    match file_type with
    | None => lower (splitext qcodes_path).2
    | Some file_type =>
        if PyStr.contains "js" (lower file_type) then ".js"
        else if PyStr.contains "css" (lower file_type) then ".css"
        else ".html"
    end in
  if String.eqb ext ".js" then Ok (Javascript contents)
  else if String.eqb ext ".css"
       then Ok (HTML (String.append "<style>" (String.append contents "</style>")))
  else Ok (HTML contents)).

End Display.

(** ** A second test bench

    An instrument that answers each query from a table, with a message
    builder for the other commands and constructors for the three module
    classes. *)

Module Rig.

Definition rig_write (cmd : string) (d : list (string * result string))
  : result unit * list (string * result string) :=
  (Ok tt, d).

Fixpoint answer (cmd : string) (table : list (string * result string)) : result string :=
  match table with
  | [] => Raise (VisaIOError "timeout")
  | (q, a) :: table' => if String.eqb q cmd then a else answer cmd table'
  end.

Definition rig_ask (cmd : string) (t : float) (d : list (string * result string))
  : result string * list (string * result string) :=
  (answer cmd d, d).

(** The answer to the module query lists, slot by slot from slot 1, the
    model and its revision; an empty slot reads [0,0]. *)
Fixpoint rig_slots (slot_nr : Z) (items : list string) : list (Z * string) :=
  match items with
  | [] => []
  | item :: items' =>
      match PyStr.split "," item with
      | model :: _ =>
          if String.eqb model "0" then rig_slots (slot_nr + 1) items'
          else (slot_nr, model) :: rig_slots (slot_nr + 1) items'
      | [] => rig_slots (slot_nr + 1) items'
      end
  end.

Definition rig_parse_modules (r : string) : result (list (Z * string)) :=
  Ok (rig_slots 1 (PyStr.split ";" r)).

Definition with_channels (mnemonic : string) (channels : option (list Z)) : result string :=
  match channels with
  | None => Ok mnemonic
  | Some chs => Ok (String.append mnemonic (String.append " " (Bench.csv chs)))
  end.

Definition with_number (mnemonic : string) (n : option Z) : result string :=
  match n with
  | None => Ok mnemonic
  | Some k => Ok (String.append mnemonic (String.append " " (Bench.show k)))
  end.

Definition rig : Collaborators :=
  mkCollaborators
    (list (string * result string)) rig_write rig_ask
    (list string) Bench.bench_add_submodule
    (fun _ => "ERRX?") "*LRN? 31" Bench.bench_fmt "XE" Bench.bench_mm Bench.bench_ait
    (MM_Mode Bench.bench) (FMT_Format Bench.bench) (FMT_Mode Bench.bench)
    Bench.bench_parser
    "*LRN? 33" Bench.bench_step_delay "*LRN? 33" Bench.bench_sweep_steps.

(** A constructor writes the initial settings [setup] of its module, each
    with the error poll of [write], and gives the module. *)
Fixpoint write_all (setup : list string) : M rig unit :=
  match setup with
  | [] => ret rig tt
  | cmd :: setup' => bind rig (write rig cmd) (fun _ => write_all setup')
  end.

Definition rig_module (class : string) (kind : ModuleKind) (chans : Z -> list Z)
           (setup : Z -> list string) (slot_nr : Z) : M rig B1500Module :=
  bind rig (write_all (setup slot_nr)) (fun _ =>
  ret rig (mkModule (String.append class (Bench.show slot_nr))
                    (String.append "B1500_" (String.append class (Bench.show slot_nr)))
                    slot_nr (chans slot_nr) kind false 1 50)).

Definition builders : Builders rig :=
  mkBuilders rig
    "UNT? 0" rig_parse_modules
    (rig_module "smu" SMU (fun n => [n])
                (fun n => [String.append "AAD " (String.append (Bench.show n) ",1")]))
    (rig_module "cmu" CMU (fun n => [n])
                (fun n => [String.append "ADJ " (String.append (Bench.show n) ",1")]))
    (rig_module "wgfmu" WGFMU (fun n => [100 * n + 1; 100 * n + 2]) (fun _ => []))
    (with_channels "CN") (with_channels "CL")
    (fun on => Ok (if on then "AZ 1" else "AZ 0"))
    (with_number "*CAL?") (Ok "ERR?") (with_number "TSR")
    (fun on channels =>
       with_channels (if on then "FL 1" else "FL 0") channels)
    (fun n => (0 <=? n) && (n <? 4096))
    0 1 2 1.

(** The mainframe before discovery, in front of the instrument [table]. *)
Definition fresh (table : list (string * result string)) : World rig :=
  mkWorld (C := rig) table [] 5%float [] ∅ ∅ ∅ None None None [[1%nat]; [1%nat]] [].

(** The error queue is empty. *)
Definition quiet : string * result string := ("ERRX?", Ok no_error).

End Rig.

(** ** Vocabulary for the session log *)

Section SessionModel.

Context (C : Collaborators).
Implicit Types (w : World C) (evs : list Event).
Local Open Scope list_scope.

(** [frame w w' evs]: from [w] to [w'] the events [evs] crossed the
    session, and the timeout and the channel index are as before. *)
Definition frame w w' evs : Prop :=
  log w' = log w ++ evs /\ timeout w' = timeout w /\ by_channel w' = by_channel w.

(** The world after the query [cmd]. *)
Definition after_ask (cmd : string) w : World C :=
  set_dev C (visa_ask C cmd (timeout w) (dev w)).2 (EvAsk cmd (timeout w)) w.

Definition after_write (cmd : string) w : World C :=
  set_dev C (visa_write C cmd (dev w)).2 (EvWrite cmd) w.

(** The answer of the instrument to the settings query, in world [w]. *)
Definition settings_answer w : result string :=
  (visa_ask C (lrn_query_settings C) (timeout w) (dev w)).1.

(** The checks of [get_raw] on a measurement mode that was read. *)
Definition check_mode w (measurement_mode : MeasurementMode) : result B1500Module :=
  match mm_channels measurement_mode with
  | [first; _] =>
      match by_channel w !! first with
      | Some smu =>
          if setup_fnc_already_run smu then Ok smu
          else Raise (Exception
                        (String.append "Sweep setup has not yet been run successfully on "
                                       (full_name smu)))
      | None => Raise (KeyError first)
      end
  | _ => Raise (ValueError
                  "Two measurement channels are needed, one for gate current and other for source drain current.")
  end.

(** The outcome of the two checks of [get_raw] in world [w]. *)
Definition checked_source w : result B1500Module :=
  rbind (rbind (settings_answer w) (decode_measurement_mode C)) (check_mode w).

(** Lines 460-485 of [get_raw]: the checks, the two reads and the
    timeout.  It gives the sweep source, the step delay, the number of
    steps and the timeout. *)
Definition sweep_timing : M C (B1500Module * float * Z * float) :=
  bind C (sweep_source C) (fun smu =>
  bind C (iv_sweep_step_delay C) (fun delay_time =>
  bind C (lift C (calculated_time smu delay_time)) (fun calculated_time =>
  bind C (iv_sweep_sweep_steps C) (fun num_steps =>
  bind C (lift C (new_timeout delay_time calculated_time num_steps)) (fun t =>
  ret C (smu, delay_time, num_steps, t)))))).

(** Lines 460-489 of [get_raw]: all that comes before the [try].  It gives
    the timeout of the sweep and the format and mode pair that was read. *)
Definition prepare : M C (float * FormatAndMode) :=
  bind C sweep_timing (fun timing =>
  bind C (get_response_format_and_mode C) (fun format_and_mode =>
  ret C (timing.2, format_and_mode))).

(** The events of a run of [get_raw]: the settings query, the two reads of
    the sweep settings and the error poll under the ambient timeout,
    writes, and the sweep-execute query under the timeout computed for
    the sweep. *)
Definition sweep_event w (e : Event) : Prop :=
  e = EvAsk (lrn_query_settings C) (timeout w) \/
  e = EvAsk (step_delay_query C) (timeout w) \/
  e = EvAsk (sweep_steps_query C) (timeout w) \/
  e = EvAsk (errx_query C None) (timeout w) \/
  (exists cmd, e = EvWrite cmd) \/
  (exists timing, (sweep_timing w).1 = Ok timing /\ e = EvAsk (xe C) timing.2).

(** The timeout of the sweep in the words of the specification:
    [effective_time] is [2 x (128 x |coefficient|) x (1 / line_frequency)]
    for a negative coefficient and [coefficient x step_delay] otherwise,
    and the timeout is [max(step_delay, effective_time) x step_count x 1.5]. *)
Definition effective_time (coefficient line_frequency : Z) (step_delay : float)
  : result float :=
  if coefficient <? 0 then
    rbind (PyNum.int_true_divide 1 line_frequency) (fun period =>
    PyNum.mul_int_float (2 * (128 * Z.abs coefficient)) period)
  else PyNum.mul_int_float coefficient step_delay.

Definition timeout_formula (coefficient line_frequency : Z) (step_delay : float)
           (step_count : Z) : result float :=
  rbind (effective_time coefficient line_frequency step_delay) (fun effective =>
  rbind (PyNum.mul_float_int (PyNum.max step_delay effective) step_count) (fun x =>
  Ok (PrimFloat.mul x 1.5%float))).

End SessionModel.

Arguments frame {C}.
Arguments after_ask {C}.
Arguments after_write {C}.
Arguments settings_answer {C}.
Arguments check_mode {C}.
Arguments checked_source {C}.
Arguments sweep_timing {C}.
Arguments prepare {C}.
Arguments sweep_event {C}.

(** * Properties *)

(** ** Strided slices *)

Lemma every_nth_lookup {A} (step : nat) (l : list A) :
  (0 < step)%nat ->
  forall skip i : nat, every_nth skip step l !! i = l !! (skip + step * i)%nat.
Proof.
  intros Hstep. induction l as [|x l IH]; intros skip i.
  - destruct skip; reflexivity.
  - destruct skip as [|k]; simpl.
    + destruct i as [|i]; simpl.
      * rewrite Nat.mul_0_r. reflexivity.
      * rewrite IH.
        replace (step * S i)%nat with (S (step - 1 + step * i)) by lia.
        reflexivity.
    + apply IH.
Qed.

Lemma every_nth_length {A} (l : list A) (k : nat) :
  (k < 3)%nat -> length (every_nth k 3 l) = ((length l + 2 - k) / 3)%nat.
Proof.
  intros Hk.
  assert (Hlook : forall i, every_nth k 3 l !! i = l !! (k + 3 * i)%nat)
    by (apply every_nth_lookup; lia).
  set (s := every_nth k 3 l) in *.
  assert (Hup : (k + 3 * length s >= length l)%nat).
  { destruct (Nat.le_gt_cases (length l) (k + 3 * length s)) as [|Hlt]; [lia|].
    apply lookup_lt_is_Some_2 in Hlt. rewrite <- Hlook in Hlt.
    apply lookup_lt_is_Some_1 in Hlt. lia. }
  assert (Hlow : (length s = 0 \/ k + 3 * (length s - 1) < length l)%nat).
  { destruct (length s) as [|n] eqn:E; [left; reflexivity|right].
    assert (Hn : (n < length s)%nat) by lia.
    apply lookup_lt_is_Some_2 in Hn. rewrite Hlook in Hn.
    apply lookup_lt_is_Some_1 in Hn. replace (S n - 1)%nat with n by lia. lia. }
  apply Nat.div_unique with (r := ((length l + 2 - k) - 3 * length s)%nat); lia.
Qed.

(** ** The tagged-field search *)

Lemma search_without_tag (tag s : string) :
  PyStr.contains tag s = false -> Re.search tag s = None.
Proof.
  induction s as [|c s IH]; cbn [PyStr.contains Re.search]; intros H.
  - apply orb_false_iff in H as [Hp _].
    unfold Re.match_here. rewrite Hp. reflexivity.
  - apply orb_false_iff in H as [Hp Hrest].
    unfold Re.match_here. rewrite Hp. apply IH, Hrest.
Qed.

(** ** The session log *)

Lemma run_eq {A B} (p : A * B) (a : A) : p.1 = a -> p = (a, p.2).
Proof. destruct p as [a' b]. simpl. intros ->. reflexivity. Qed.

Section Session.

Context (C : Collaborators).
Implicit Types (w : World C) (evs : list Event).
Local Open Scope list_scope.

Lemma frame_refl w : frame w w [].
Proof. unfold frame. rewrite app_nil_r. auto. Qed.

Lemma frame_trans w1 w2 w3 evs1 evs2 :
  frame w1 w2 evs1 -> frame w2 w3 evs2 -> frame w1 w3 (evs1 ++ evs2).
Proof.
  unfold frame. intros (L1 & T1 & B1) (L2 & T2 & B2).
  rewrite L2, L1, T2, T1, B2, B1, app_assoc. auto.
Qed.

Lemma ask_run cmd w :
  ask C cmd w = ((visa_ask C cmd (timeout w) (dev w)).1, after_ask cmd w).
Proof. unfold ask, after_ask. destruct (visa_ask C cmd (timeout w) (dev w)); reflexivity. Qed.

Lemma super_write_run cmd w :
  super_write C cmd w = ((visa_write C cmd (dev w)).1, after_write cmd w).
Proof. unfold super_write, after_write. destruct (visa_write C cmd (dev w)); reflexivity. Qed.

Lemma after_ask_frame cmd w : frame w (after_ask cmd w) [EvAsk cmd (timeout w)].
Proof. unfold frame, after_ask; simpl; auto. Qed.

Lemma after_write_frame cmd w : frame w (after_write cmd w) [EvWrite cmd].
Proof. unfold frame, after_write; simpl; auto. Qed.

(** [write] step by step: the transport write, then the poll of the error
    queue, then the comparison with the literal. *)
Lemma write_run cmd w :
  write C cmd w =
  match (visa_write C cmd (dev w)).1 with
  | Raise e => (Raise e, after_write cmd w)
  | Ok _ =>
      let w1 := after_write cmd w in
      let w2 := after_ask (errx_query C None) w1 in
      match (visa_ask C (errx_query C None) (timeout w1) (dev w1)).1 with
      | Raise e => (Raise e, w2)
      | Ok response =>
          if String.eqb response no_error then (Ok tt, w2)
          else (Raise (RuntimeError
                         (String.append "While setting this parameter received error: "
                                        response)), w2)
      end
  end.
Proof.
  unfold write, bind, error_message. rewrite super_write_run.
  destruct (visa_write C cmd (dev w)).1; [|reflexivity].
  cbv zeta. unfold bind. rewrite ask_run.
  destruct (visa_ask C _ _ (dev (after_write cmd w))).1; [|reflexivity].
  unfold ret. destruct (String.eqb a0 no_error); reflexivity.
Qed.

Lemma write_frame cmd w :
  exists tail,
    frame w (write C cmd w).2 (EvWrite cmd :: tail) /\
    existsb is_write tail = false /\
    (forall e, In e tail -> e = EvAsk (errx_query C None) (timeout w)).
Proof.
  rewrite write_run.
  destruct (visa_write C cmd (dev w)).1.
  - exists [EvAsk (errx_query C None) (timeout w)].
    assert (F : frame w (after_ask (errx_query C None) (after_write cmd w))
                      ([EvWrite cmd] ++ [EvAsk (errx_query C None) (timeout w)])).
    { eapply frame_trans; [apply after_write_frame|].
      pose proof (after_ask_frame (errx_query C None) (after_write cmd w)) as F.
      exact F. }
    cbv zeta.
    destruct (visa_ask C _ _ (dev (after_write cmd w))).1 as [r|e];
      [destruct (String.eqb r no_error)|]; simpl;
      (split; [exact F|split; [reflexivity|intros e' [<-|[]]; reflexivity]]).
  - exists []. simpl. split; [apply after_write_frame|].
    split; [reflexivity|intros e' []].
Qed.

Lemma get_measurement_mode_run w :
  get_measurement_mode C w =
  (rbind (settings_answer w) (decode_measurement_mode C),
   after_ask (lrn_query_settings C) w).
Proof.
  unfold get_measurement_mode, bind, lift, settings_answer. rewrite ask_run.
  destruct (visa_ask C _ _ (dev w)).1; reflexivity.
Qed.

Lemma get_response_format_and_mode_run w :
  get_response_format_and_mode C w =
  (rbind (settings_answer w) (decode_format_and_mode C),
   after_ask (lrn_query_settings C) w).
Proof.
  unfold get_response_format_and_mode, bind, lift, settings_answer. rewrite ask_run.
  destruct (visa_ask C _ _ (dev w)).1; reflexivity.
Qed.

Lemma sweep_source_run w :
  sweep_source C w =
  (rbind (rbind (settings_answer w) (decode_measurement_mode C)) (check_mode w),
   after_ask (lrn_query_settings C) w).
Proof.
  unfold sweep_source, bind. rewrite get_measurement_mode_run.
  destruct (rbind (settings_answer w) (decode_measurement_mode C)) as [m|e];
    [|reflexivity].
  simpl. unfold check_mode.
  destruct (mm_channels m) as [|first [|second [|third rest]]]; try reflexivity.
  unfold by_channel_getitem. simpl.
  destruct (by_channel w !! first) as [smu|]; [|reflexivity].
  destruct (setup_fnc_already_run smu); reflexivity.
Qed.

Lemma execute_run t w :
  execute C t w =
  match write C (fmt C 1 1) w with
  | (Raise e, w1) => (Raise e, w1)
  | (Ok _, w1) =>
      (rbind (visa_ask C (xe C) t (dev w1)).1 (fmt_response_base_parser C),
       set_timeout C (timeout w1) (after_ask (xe C) (set_timeout C t w1)))
  end.
Proof.
  unfold execute, bind.
  destruct (write C (fmt C 1 1) w) as [[[]|e] w1]; [|reflexivity].
  unfold with_timeout. rewrite ask_run. simpl.
  destruct (visa_ask C (xe C) t (dev w1)).1 as [raw|e]; simpl; [|reflexivity].
  unfold lift, ret. destruct (fmt_response_base_parser C raw); reflexivity.
Qed.

Lemma execute_frame t w :
  exists evs,
    frame w (execute C t w).2 evs /\
    (forall e, In e evs ->
               e = EvWrite (fmt C 1 1) \/
               e = EvAsk (errx_query C None) (timeout w) \/
               e = EvAsk (xe C) t).
Proof.
  rewrite execute_run.
  destruct (write_frame (fmt C 1 1) w) as (tail & F & _ & Htail).
  destruct (write C (fmt C 1 1) w) as [[[]|e] w1]; simpl in F.
  - exists ((EvWrite (fmt C 1 1) :: tail) ++ [EvAsk (xe C) t]). split.
    + eapply frame_trans; [exact F|].
      unfold frame, after_ask; simpl. auto.
    + intros e He. apply in_app_or in He.
      destruct He as [[<-|He]|[<-|[]]]; auto.
  - exists (EvWrite (fmt C 1 1) :: tail). split; [exact F|].
    intros e' [<-|He]; auto.
Qed.

Lemma restore_frame fm w :
  exists tail,
    frame w (restore C fm w).2 (EvWrite (fmt C (fmt_format fm) (fmt_mode fm)) :: tail) /\
    existsb is_write tail = false /\
    (forall e, In e tail -> e = EvAsk (errx_query C None) (timeout w)).
Proof. apply write_frame. Qed.

Lemma store_run pd w :
  (store C pd w).1 = Ok (value (deinterleave 0 pd), value (deinterleave 1 pd)) /\
  frame w (store C pd w).2 [].
Proof. split; [reflexivity|]. unfold frame; simpl. rewrite app_nil_r. auto. Qed.

Lemma iv_sweep_step_delay_run w :
  iv_sweep_step_delay C w =
  (rbind (visa_ask C (step_delay_query C) (timeout w) (dev w)).1 (decode_step_delay C),
   after_ask (step_delay_query C) w).
Proof.
  unfold iv_sweep_step_delay, bind, lift. rewrite ask_run.
  destruct (visa_ask C _ _ (dev w)).1; reflexivity.
Qed.

Lemma iv_sweep_sweep_steps_run w :
  iv_sweep_sweep_steps C w =
  (rbind (visa_ask C (sweep_steps_query C) (timeout w) (dev w)).1 (decode_sweep_steps C),
   after_ask (sweep_steps_query C) w).
Proof.
  unfold iv_sweep_sweep_steps, bind, lift. rewrite ask_run.
  destruct (visa_ask C _ _ (dev w)).1; reflexivity.
Qed.

(** The first part of [get_raw], read by read. *)
Lemma sweep_timing_run w :
  sweep_timing w =
  let w1 := after_ask (lrn_query_settings C) w in
  let w2 := after_ask (step_delay_query C) w1 in
  let w3 := after_ask (sweep_steps_query C) w2 in
  match checked_source w with
  | Raise e => (Raise e, w1)
  | Ok smu =>
      match (iv_sweep_step_delay C w1).1 with
      | Raise e => (Raise e, w2)
      | Ok delay_time =>
          match calculated_time smu delay_time with
          | Raise e => (Raise e, w2)
          | Ok calculated =>
              match (iv_sweep_sweep_steps C w2).1 with
              | Raise e => (Raise e, w3)
              | Ok num_steps =>
                  match new_timeout delay_time calculated num_steps with
                  | Raise e => (Raise e, w3)
                  | Ok t => (Ok (smu, delay_time, num_steps, t), w3)
                  end
              end
          end
      end
  end.
Proof.
  unfold sweep_timing, bind, checked_source. rewrite sweep_source_run.
  destruct (rbind (rbind _ _) (check_mode w)) as [smu|e]; [|reflexivity].
  cbv zeta. rewrite iv_sweep_step_delay_run. cbn [fst snd].
  destruct (rbind _ (decode_step_delay C)) as [d|e]; [|reflexivity].
  unfold lift at 1.
  destruct (calculated_time smu d) as [c|e]; [|reflexivity].
  rewrite iv_sweep_sweep_steps_run. cbn [fst snd].
  destruct (rbind _ (decode_sweep_steps C)) as [n|e]; [|reflexivity].
  unfold lift, ret.
  destruct (new_timeout d c n); reflexivity.
Qed.

(** All that comes before the [try]: the first part, then the read of the
    format and mode pair. *)
Lemma prepare_run w :
  prepare w =
  match sweep_timing w with
  | (Raise e, w3) => (Raise e, w3)
  | (Ok timing, w3) =>
      match rbind (settings_answer w3) (decode_format_and_mode C) with
      | Raise e => (Raise e, after_ask (lrn_query_settings C) w3)
      | Ok fm => (Ok (timing.2, fm), after_ask (lrn_query_settings C) w3)
      end
  end.
Proof.
  unfold prepare, bind.
  destruct (sweep_timing w) as [[timing|e] w3]; [|reflexivity].
  rewrite get_response_format_and_mode_run.
  destruct (rbind _ (decode_format_and_mode C)); reflexivity.
Qed.

(** [get_raw] is the preparation followed by the [try] with its [finally]
    and by the storing of the series. *)
Lemma get_raw_prepare w :
  get_raw C w =
  match prepare w with
  | (Raise e, w2) => (Raise e, w2)
  | (Ok (t, fm), w2) =>
      let w3 := (execute C t w2).2 in
      let w4 := (restore C fm w3).2 in
      match (restore C fm w3).1 with
      | Raise e => (Raise e, w4)
      | Ok _ =>
          match (execute C t w2).1 with
          | Raise e => (Raise e, w4)
          | Ok parsed_data => store C parsed_data w4
          end
      end
  end.
Proof.
  unfold get_raw, prepare, sweep_timing, bind, lift, ret.
  destruct (sweep_source C w) as [[smu|e] w1]; [|reflexivity].
  destruct (iv_sweep_step_delay C w1) as [[d|e] w2]; [|reflexivity].
  destruct (calculated_time smu d) as [c|e]; [|reflexivity].
  destruct (iv_sweep_sweep_steps C w2) as [[n|e] w3]; [|reflexivity].
  destruct (new_timeout d c n) as [t|e]; [|reflexivity].
  destruct (get_response_format_and_mode C w3) as [[fm|e] w4]; [|reflexivity].
  cbn [fst snd]. unfold try_finally.
  destruct (execute C t w4) as [r5 w5]. cbn [fst snd].
  destruct (restore C fm w5) as [[[]|e] w6]; cbn [fst snd]; [|reflexivity].
  destruct r5; reflexivity.
Qed.

Lemma checked_source_ok w smu :
  checked_source w = Ok smu ->
  exists mode first second,
    (get_measurement_mode C w).1 = Ok mode /\
    mm_channels mode = [first; second] /\
    by_channel w !! first = Some smu /\
    setup_fnc_already_run smu = true.
Proof.
  unfold checked_source. rewrite get_measurement_mode_run. simpl.
  destruct (rbind (settings_answer w) (decode_measurement_mode C)) as [mode|e];
    simpl; [|discriminate].
  unfold check_mode.
  destruct (mm_channels mode) as [|first [|second [|third rest]]] eqn:Hc;
    try discriminate.
  destruct (by_channel w !! first) as [m|] eqn:Hb; [|discriminate].
  destruct (setup_fnc_already_run m) eqn:Hrun; [|discriminate].
  intros [= ->]. exists mode, first, second. auto.
Qed.

Lemma new_timeout_formula smu delay_time num_steps :
  rbind (calculated_time smu delay_time)
        (fun calculated => new_timeout delay_time calculated num_steps) =
  timeout_formula (_average_coefficient smu) (power_line_frequency smu)
                  delay_time num_steps.
Proof. reflexivity. Qed.

(** What a successful first part has read. *)
Lemma sweep_timing_ok w smu delay_time num_steps t :
  (sweep_timing w).1 = Ok (smu, delay_time, num_steps, t) ->
  checked_source w = Ok smu /\
  (iv_sweep_step_delay C (sweep_source C w).2).1 = Ok delay_time /\
  (iv_sweep_sweep_steps C (iv_sweep_step_delay C (sweep_source C w).2).2).1 =
    Ok num_steps /\
  timeout_formula (_average_coefficient smu) (power_line_frequency smu)
                  delay_time num_steps = Ok t /\
  (sweep_timing w).2 =
    after_ask (sweep_steps_query C)
      (after_ask (step_delay_query C) (after_ask (lrn_query_settings C) w)).
Proof.
  rewrite sweep_timing_run. cbv zeta.
  rewrite sweep_source_run. cbn [snd].
  set (w1 := after_ask (lrn_query_settings C) w).
  replace (iv_sweep_step_delay C w1).2 with (after_ask (step_delay_query C) w1)
    by (rewrite iv_sweep_step_delay_run; reflexivity).
  set (w2 := after_ask (step_delay_query C) w1).
  destruct (checked_source w) as [smu'|e]; [|discriminate].
  destruct (iv_sweep_step_delay C w1).1 as [d|e]; [|discriminate].
  destruct (calculated_time smu' d) as [c|e] eqn:Hc; [|discriminate].
  destruct (iv_sweep_sweep_steps C w2).1 as [n|e]; [|discriminate].
  destruct (new_timeout d c n) as [t'|e] eqn:Ht; [|discriminate].
  cbn [fst snd]. intros [= -> -> -> ->].
  repeat split; try reflexivity.
  rewrite <- new_timeout_formula, Hc. exact Ht.
Qed.

(** What a successful preparation has read. *)
Lemma prepare_ok w t fm :
  (prepare w).1 = Ok (t, fm) ->
  exists timing,
    (sweep_timing w).1 = Ok timing /\ timing.2 = t /\
    (get_response_format_and_mode C (sweep_timing w).2).1 = Ok fm /\
    (prepare w).2 = after_ask (lrn_query_settings C) (sweep_timing w).2.
Proof.
  rewrite prepare_run.
  destruct (sweep_timing w) as [[timing|e] w3]; [|discriminate].
  rewrite get_response_format_and_mode_run. cbn [fst snd].
  destruct (rbind _ (decode_format_and_mode C)) as [fm'|e]; [|discriminate].
  cbn [fst snd]. intros [= <- <-]. exists timing. auto.
Qed.

(** The traffic of the first part: queries only, under the ambient
    timeout; all three of them when it succeeds. *)
Lemma sweep_timing_trace w :
  exists evs,
    frame w (sweep_timing w).2 evs /\
    (forall e, In e evs ->
               e = EvAsk (lrn_query_settings C) (timeout w) \/
               e = EvAsk (step_delay_query C) (timeout w) \/
               e = EvAsk (sweep_steps_query C) (timeout w)) /\
    (forall timing, (sweep_timing w).1 = Ok timing ->
       evs = [EvAsk (lrn_query_settings C) (timeout w);
              EvAsk (step_delay_query C) (timeout w);
              EvAsk (sweep_steps_query C) (timeout w)]).
Proof.
  rewrite sweep_timing_run. cbv zeta.
  pose proof (after_ask_frame (lrn_query_settings C) w) as F1.
  set (w1 := after_ask (lrn_query_settings C) w) in *.
  pose proof (frame_trans _ _ _ _ _ F1 (after_ask_frame (step_delay_query C) w1)) as F2.
  set (w2 := after_ask (step_delay_query C) w1) in *.
  pose proof (frame_trans _ _ _ _ _ F2 (after_ask_frame (sweep_steps_query C) w2)) as F3.
  set (w3 := after_ask (sweep_steps_query C) w2) in *.
  change (timeout w1) with (timeout w) in *.
  change (timeout w2) with (timeout w) in *.
  destruct (checked_source w) as [smu|e].
  2:{ eexists; split; [exact F1|]. split; [intros e' [<-|[]]; auto|].
      intros timing H; discriminate. }
  destruct (iv_sweep_step_delay C w1).1 as [d|e].
  2:{ eexists; split; [exact F2|]. split; [intros e' [<-|[<-|[]]]; auto|].
      intros timing H; discriminate. }
  destruct (calculated_time smu d) as [c|e].
  2:{ eexists; split; [exact F2|]. split; [intros e' [<-|[<-|[]]]; auto|].
      intros timing H; discriminate. }
  destruct (iv_sweep_sweep_steps C w2).1 as [n|e].
  2:{ eexists; split; [exact F3|]. split; [intros e' [<-|[<-|[<-|[]]]]; auto|].
      intros timing H; discriminate. }
  destruct (new_timeout d c n) as [t|e].
  2:{ eexists; split; [exact F3|]. split; [intros e' [<-|[<-|[<-|[]]]]; auto|].
      intros timing H; discriminate. }
  eexists; split; [exact F3|]. split; [intros e' [<-|[<-|[<-|[]]]]; auto|].
  intros timing H; reflexivity.
Qed.

(** The traffic of the preparation: queries only, under the ambient
    timeout; the four of them when it succeeds. *)
Lemma prepare_trace w :
  exists evs,
    frame w (prepare w).2 evs /\
    (forall e, In e evs ->
               e = EvAsk (lrn_query_settings C) (timeout w) \/
               e = EvAsk (step_delay_query C) (timeout w) \/
               e = EvAsk (sweep_steps_query C) (timeout w)) /\
    (forall r, (prepare w).1 = Ok r ->
       evs = [EvAsk (lrn_query_settings C) (timeout w);
              EvAsk (step_delay_query C) (timeout w);
              EvAsk (sweep_steps_query C) (timeout w);
              EvAsk (lrn_query_settings C) (timeout w)]).
Proof.
  rewrite prepare_run.
  destruct (sweep_timing_trace w) as (evs & F & Hev & Hok).
  destruct (sweep_timing w) as [[timing|e] w3]; cbn [fst snd] in *.
  2:{ exists evs. split; [exact F|]. split; [exact Hev|]. intros r H; discriminate. }
  pose proof (frame_trans _ _ _ _ _ F (after_ask_frame (lrn_query_settings C) w3)) as F4.
  assert (T3 : timeout w3 = timeout w) by apply F.
  rewrite T3 in F4.
  assert (Hev4 : forall e, In e (evs ++ [EvAsk (lrn_query_settings C) (timeout w)]) ->
               e = EvAsk (lrn_query_settings C) (timeout w) \/
               e = EvAsk (step_delay_query C) (timeout w) \/
               e = EvAsk (sweep_steps_query C) (timeout w)).
  { intros e He. apply in_app_or in He. destruct He as [He|[<-|[]]]; auto. }
  exists (evs ++ [EvAsk (lrn_query_settings C) (timeout w)]).
  destruct (rbind _ (decode_format_and_mode C)) as [fm|e]; cbn [fst snd].
  - split; [exact F4|]. split; [exact Hev4|].
    intros r _. rewrite (Hok timing eq_refl). reflexivity.
  - split; [exact F4|]. split; [exact Hev4|]. intros r H; discriminate.
Qed.

Lemma get_raw_events w :
  exists evs,
    log (get_raw C w).2 = log w ++ evs /\ forall e, In e evs -> sweep_event w e.
Proof.
  rewrite get_raw_prepare.
  destruct (prepare_trace w) as (evs0 & F0 & H0 & _).
  pose proof (prepare_ok w) as Hok.
  assert (Hstop : exists evs, log (prepare w).2 = log w ++ evs /\
                              forall e, In e evs -> sweep_event w e).
  { exists evs0. split; [apply F0|]. intros e He. unfold sweep_event.
    destruct (H0 e He) as [-> | [-> | ->]]; auto 8. }
  destruct (prepare w) as [[[t fm]|e] w2]; cbn [fst snd] in *; [|exact Hstop].
  destruct (Hok t fm eq_refl) as (timing & Htiming & Ht & _).
  cbv zeta.
  destruct (execute_frame t w2) as (evs3 & F3 & H3).
  destruct (restore_frame fm (execute C t w2).2) as (tail & F4 & _ & H4).
  pose proof (frame_trans _ _ _ _ _ F0 (frame_trans _ _ _ _ _ F3 F4)) as F.
  assert (T2 : timeout w2 = timeout w) by apply F0.
  assert (T3 : timeout (execute C t w2).2 = timeout w)
    by (destruct F3 as (_ & T & _); congruence).
  assert (Hfinal : exists evs,
            log (restore C fm (execute C t w2).2).2 = log w ++ evs /\
            forall e, In e evs -> sweep_event w e).
  { eexists; split; [apply F|].
    intros e He. unfold sweep_event. apply in_app_or in He. destruct He as [He|He].
    - destruct (H0 e He) as [-> | [-> | ->]]; auto 8.
    - apply in_app_or in He. destruct He as [He|[<-|He]].
      + apply H3 in He. rewrite T2 in He.
        destruct He as [-> | [-> | ->]]; eauto 8.
        do 5 right. exists timing. rewrite Ht. auto.
      + eauto 8.
      + apply H4 in He. rewrite T3 in He. auto 8. }
  destruct (restore C fm (execute C t w2).2).1; [|exact Hfinal].
  destruct (execute C t w2).1 as [pd|e]; [|exact Hfinal].
  destruct (store_run pd (restore C fm (execute C t w2).2).2) as (_ & L & _).
  rewrite L, app_nil_r. exact Hfinal.
Qed.

Lemma execute_sends_xe t w :
  (write C (fmt C 1 1) w).1 = Ok tt ->
  exists pre, log (execute C t w).2 = log w ++ pre ++ [EvAsk (xe C) t].
Proof.
  intros Hw. rewrite execute_run.
  destruct (write_frame (fmt C 1 1) w) as (tail & (L & _) & _).
  destruct (write C (fmt C 1 1) w) as [[[]|e] w1]; simpl in *; [|discriminate].
  exists (EvWrite (fmt C 1 1) :: tail). rewrite L, <- app_assoc. reflexivity.
Qed.

Lemma get_raw_sends_xe w t fm :
  (prepare w).1 = Ok (t, fm) ->
  (write C (fmt C 1 1) (prepare w).2).1 = Ok tt ->
  exists pre post, log (get_raw C w).2 = log w ++ pre ++ EvAsk (xe C) t :: post.
Proof.
  rewrite get_raw_prepare.
  destruct (prepare_trace w) as (evs0 & (L0 & _) & _).
  destruct (prepare w) as [[[t' fm']|e] w2]; cbn [fst snd] in *; [|discriminate].
  intros [= -> ->] Hwrite. cbv zeta.
  destruct (execute_sends_xe t w2 Hwrite) as (pre & L3).
  destruct (restore_frame fm (execute C t w2).2) as (tail & (L4 & _) & _).
  assert (L : log (restore C fm (execute C t w2).2).2 =
              log w ++ (evs0 ++ pre) ++
              EvAsk (xe C) t :: EvWrite (fmt C (fmt_format fm) (fmt_mode fm)) :: tail).
  { rewrite L4, L3, L0. rewrite <- !app_assoc. reflexivity. }
  exists (evs0 ++ pre), (EvWrite (fmt C (fmt_format fm) (fmt_mode fm)) :: tail).
  destruct (restore C fm (execute C t w2).2).1; [|exact L].
  destruct (execute C t w2).1 as [pd|e]; [|exact L].
  destruct (store_run pd (restore C fm (execute C t w2).2).2) as (_ & Ls & _).
  rewrite Ls, app_nil_r. exact L.
Qed.

(** C1. In every run of [get_raw], each sweep-execute query that crosses
    the session is sent under the timeout given by the formula of the
    specification, evaluated on the averaging coefficient and the line
    frequency of the module registered for the first channel of the
    measurement mode, and on the step delay and the step count that the
    run has read from the instrument; and the query is sent under the
    timeout computed before the [try] as soon as all that comes before
    the [try] has succeeded and the write forcing the format has
    succeeded.  For coefficient -2, line frequency 50, delay 0.01 and 100
    steps the timeout is 1536.0; for coefficient 4, delay 0.02 and 50
    steps it is 6.0. *)
Theorem sweep_execute_timeout w :
  xe C <> lrn_query_settings C ->
  xe C <> step_delay_query C ->
  xe C <> sweep_steps_query C ->
  xe C <> errx_query C None ->
  (exists evs,
     log (get_raw C w).2 = log w ++ evs /\
     (forall t, In (EvAsk (xe C) t) evs ->
        exists mode first second smu step_delay step_count,
          (get_measurement_mode C w).1 = Ok mode /\
          mm_channels mode = [first; second] /\
          by_channel w !! first = Some smu /\
          (iv_sweep_step_delay C (sweep_source C w).2).1 = Ok step_delay /\
          (iv_sweep_sweep_steps C (iv_sweep_step_delay C (sweep_source C w).2).2).1 =
            Ok step_count /\
          rbind (calculated_time smu step_delay)
                (fun calculated => new_timeout step_delay calculated step_count) = Ok t /\
          timeout_formula (_average_coefficient smu) (power_line_frequency smu)
                          step_delay step_count = Ok t) /\
     (forall t fm,
        (prepare w).1 = Ok (t, fm) ->
        (write C (fmt C 1 1) (prepare w).2).1 = Ok tt ->
        In (EvAsk (xe C) t) evs)) /\
  timeout_formula (-2) 50 0.01%float 100 = Ok 1536%float /\
  timeout_formula 4 50 0.02%float 50 = Ok 6%float.
Proof.
  intros Hlrn Hdelay Hsteps Herrx. split; [|split; vm_compute; reflexivity].
  destruct (get_raw_events w) as (evs & Hlog & Hev).
  exists evs. split; [exact Hlog|]. split.
  - intros t Hin. apply Hev in Hin.
    destruct Hin as [Heq|[Heq|[Heq|[Heq|[[cmd Heq]|(timing & Htiming & Heq)]]]]].
    + injection Heq as Hcmd _. contradiction.
    + injection Heq as Hcmd _. contradiction.
    + injection Heq as Hcmd _. contradiction.
    + injection Heq as Hcmd _. contradiction.
    + discriminate.
    + injection Heq as ->.
      destruct timing as [[[smu d] n] t].
      destruct (sweep_timing_ok w smu d n t Htiming) as (Hsrc & Hd & Hn & Hf & _).
      destruct (checked_source_ok w smu Hsrc)
        as (mode & first & second & Hm & Hc & Hb & _).
      exists mode, first, second, smu, d, n.
      rewrite new_timeout_formula. auto 10.
  - intros t fm Hprep Hwrite.
    destruct (get_raw_sends_xe w t fm Hprep Hwrite) as (pre & post & L).
    rewrite Hlog in L. apply app_inv_head in L. rewrite L.
    apply in_or_app. right. left. reflexivity.
Qed.

(** C6. When the measurement mode that was read does not list exactly two
    channels the run fails with the [ValueError] of [get_raw], and when the
    module of the first listed channel has not run its sweep setup it fails
    with the [Exception] of [get_raw]; in both cases the settings query is
    the only traffic of the run, so nothing was sent for the sweep. *)
Theorem sweep_preconditions w mode :
  (get_measurement_mode C w).1 = Ok mode ->
  (length (mm_channels mode) <> 2%nat ->
   (get_raw C w).1 =
     Raise (ValueError
              "Two measurement channels are needed, one for gate current and other for source drain current.") /\
   log (get_raw C w).2 = log w ++ [EvAsk (lrn_query_settings C) (timeout w)]) /\
  (forall first second smu,
     mm_channels mode = [first; second] ->
     by_channel w !! first = Some smu ->
     setup_fnc_already_run smu = false ->
     (get_raw C w).1 =
       Raise (Exception
                (String.append "Sweep setup has not yet been run successfully on "
                               (full_name smu))) /\
     log (get_raw C w).2 = log w ++ [EvAsk (lrn_query_settings C) (timeout w)]).
Proof.
  rewrite get_measurement_mode_run. simpl. intros Hmode.
  rewrite get_raw_prepare, prepare_run, sweep_timing_run. cbv zeta.
  unfold checked_source. rewrite Hmode. simpl.
  split.
  - intros Hlen. unfold check_mode.
    destruct (mm_channels mode) as [|first [|second [|third rest]]];
      simpl in Hlen; try contradiction; simpl; auto.
  - intros first second smu Hch Hsmu Hrun. unfold check_mode.
    rewrite Hch, Hsmu, Hrun. simpl. auto.
Qed.

(** C2. In a run of [get_raw] that has read the format and mode pair,
    whatever the outcome of the execute phase (a result, a timeout of the
    sweep-execute query, a failure of the parser, a failure of the write
    that forces the format), the traffic after that phase starts with the
    command restoring the pair that was read and contains no other write;
    and when the restoring write succeeds, an error of the execute phase is
    the error of the run. *)
Theorem restore_after_execute w t fm :
  (prepare w).1 = Ok (t, fm) ->
  let w2 := (prepare w).2 in
  let w3 := (execute C t w2).2 in
  exists tail,
    log (get_raw C w).2 =
      log w3 ++ EvWrite (fmt C (fmt_format fm) (fmt_mode fm)) :: tail /\
    existsb is_write tail = false /\
    (forall e, (execute C t w2).1 = Raise e ->
               (restore C fm w3).1 = Ok tt ->
               (get_raw C w).1 = Raise e).
Proof.
  rewrite get_raw_prepare.
  destruct (prepare w) as [[[t' fm']|e] w2]; cbn [fst snd]; [|discriminate].
  intros [= -> ->]. cbv zeta.
  destruct (restore_frame fm (execute C t w2).2) as (tail & (L & _) & Hw & _).
  exists tail.
  destruct (restore C fm (execute C t w2).2).1 as [[]|e] eqn:Hres.
  - destruct (execute C t w2).1 as [pd|e] eqn:Hex.
    + destruct (store_run pd (restore C fm (execute C t w2).2).2) as (_ & Ls & _).
      rewrite Ls, app_nil_r. split; [exact L|]. split; [exact Hw|].
      intros e He. discriminate.
    + simpl. split; [exact L|]. split; [exact Hw|].
      intros e' [= ->] _. reflexivity.
  - simpl. split; [exact L|]. split; [exact Hw|].
    intros e' _ Hok. discriminate.
Qed.

(** ** The post-write error check *)

(** C3 (amended). What [write] does once the transport has taken the
    command and the error queue has answered [response]: the command is
    followed by exactly one poll of the error queue; [write] returns
    exactly when the answer is the literal of the source, the signed
    [+0,"No Error."], and otherwise raises [RuntimeError] with the whole
    answer in the message. *)
Lemma write_checks_error_queue cmd w response :
  (visa_write C cmd (dev w)).1 = Ok tt ->
  (visa_ask C (errx_query C None) (timeout w) (dev (after_write cmd w))).1 = Ok response ->
  log (write C cmd w).2 = log w ++ [EvWrite cmd; EvAsk (errx_query C None) (timeout w)] /\
  ((write C cmd w).1 = Ok tt <-> response = no_error) /\
  (response <> no_error ->
   (write C cmd w).1 =
     Raise (RuntimeError
              (String.append "While setting this parameter received error: " response))).
Proof.
  intros Hw Ha. rewrite write_run, Hw. cbv zeta.
  change (timeout (after_write cmd w)) with (timeout w). rewrite Ha.
  destruct (String.eqb response no_error) eqn:E; simpl.
  - apply String.eqb_eq in E. rewrite <- app_assoc. simpl.
    split; [reflexivity|]. split; [tauto|]. intros; contradiction.
  - apply String.eqb_neq in E. rewrite <- app_assoc. simpl.
    split; [reflexivity|]. split; [|reflexivity].
    split; [discriminate|contradiction].
Qed.

(** ** Integration time *)

(** C7 (amended). A coefficient given as a float is truncated by [int()]
    and from there on the call is the call with that integer: nothing is
    raised for the lost fraction.  The method checks no range: whatever
    integer results is handed to the message builder, and the message that
    the builder gives is written to the instrument, as the first event of
    the call.  Only when the builder raises does the call raise, with the
    same error, and the world with its session log is then as before the
    call. *)
Theorem setup_integration_time_coercion adc_type mode (x : float) (n : Z) w :
  PyNum.int_of_float x = Ok n ->
  _setup_integration_time C adc_type mode (Some (CoeffFloat x)) w =
  _setup_integration_time C adc_type mode (Some (CoeffInt n)) w /\
  (forall message, ait C adc_type mode (Some n) = Ok message ->
             _setup_integration_time C adc_type mode (Some (CoeffFloat x)) w =
             write C message w /\
             exists tail,
               log (_setup_integration_time C adc_type mode (Some (CoeffFloat x)) w).2 =
               log w ++ EvWrite message :: tail) /\
  (forall e, ait C adc_type mode (Some n) = Raise e ->
             _setup_integration_time C adc_type mode (Some (CoeffFloat x)) w =
             (Raise e, w)).
Proof.
  intros Hx. unfold _setup_integration_time, bind, lift, ret. simpl. rewrite Hx.
  split; [reflexivity|]. split.
  - intros message ->. split; [reflexivity|].
    destruct (write_frame message w) as (tail & (L & _) & _).
    exists tail. exact L.
  - intros e ->. reflexivity.
Qed.

(** ** Mode and format extraction *)

(** C8. When the answer to the settings query does not contain the tag
    [MM], [get_measurement_mode] raises its "not found" [ValueError]; when
    it does not contain [FMT], so does [get_response_format_and_mode]. *)
Theorem missing_tag_fails w response :
  (visa_ask C (lrn_query_settings C) (timeout w) (dev w)).1 = Ok response ->
  (PyStr.contains "MM" response = false ->
   (get_measurement_mode C w).1 =
     Raise (ValueError "Measurement Mode (MM) not found.")) /\
  (PyStr.contains "FMT" response = false ->
   (get_response_format_and_mode C w).1 =
     Raise (ValueError "Measurement Mode (FMT) not found.")).
Proof.
  intros Hask. split; intros Htag.
  - rewrite get_measurement_mode_run. unfold settings_answer. rewrite Hask. simpl.
    unfold decode_measurement_mode. rewrite (search_without_tag _ _ Htag).
    reflexivity.
  - rewrite get_response_format_and_mode_run. unfold settings_answer.
    rewrite Hask. simpl.
    unfold decode_format_and_mode. rewrite (search_without_tag _ _ Htag).
    reflexivity.
Qed.

(** C9. After the measurement mode 1 with the channels 3, 5 has been
    encoded and written, reading the mode back from the response
    [MM1,3,5;] gives mode 1 and the channels 3, 5 in that order. *)
Theorem measurement_mode_round_trip w :
  MM_Mode C 1 = true ->
  let w1 := (set_measurement_mode C 1 (Some [3; 5]) w).2 in
  (visa_ask C (lrn_query_settings C) (timeout w1) (dev w1)).1 = Ok "MM1,3,5;" ->
  decode_measurement_mode C "MM1,3,5;" = Ok (mkMeasurementMode 1 [3; 5]) /\
  (get_measurement_mode C w1).1 = Ok (mkMeasurementMode 1 [3; 5]).
Proof.
  intros Hmember w1 Hask.
  assert (Hdec : decode_measurement_mode C "MM1,3,5;" = Ok (mkMeasurementMode 1 [3; 5])).
  { unfold decode_measurement_mode.
    replace (Re.search "MM" "MM1,3,5;") with (Some ("1", "3,5"))
      by (vm_compute; reflexivity).
    replace (PyStr.int "1") with (Ok 1) by (vm_compute; reflexivity).
    replace (rmap PyStr.int (PyStr.split "," "3,5")) with (Ok [3; 5])
      by (vm_compute; reflexivity).
    cbn [rbind]. unfold enum_of. rewrite Hmember. reflexivity. }
  split; [exact Hdec|].
  rewrite get_measurement_mode_run. unfold settings_answer. rewrite Hask.
  simpl. exact Hdec.
Qed.

(** ** The registry *)

Lemma register_channels_in (m : B1500Module) (chs : list Z)
      (idx : gmap Z B1500Module) (ch : Z) :
  ch ∈ chs -> foldl (fun acc c => <[c := m]> acc) idx chs !! ch = Some m.
Proof.
  revert idx. induction chs as [|c chs IH]; intros idx Hin.
  - inversion Hin.
  - simpl. destruct (decide (ch ∈ chs)) as [Hrest|Hrest].
    + apply IH, Hrest.
    + apply elem_of_cons in Hin as [->|Hin]; [|contradiction].
      clear IH. revert idx. induction chs as [|c' chs IH]; intros idx.
      * simpl. apply lookup_insert_eq.
      * simpl. apply not_elem_of_cons in Hrest as [Hne Hrest].
        rewrite (insert_insert_ne idx) by congruence.
        apply IH, Hrest.
Qed.

Lemma register_channels_out (m : B1500Module) (chs : list Z)
      (idx : gmap Z B1500Module) (ch : Z) :
  ch ∉ chs -> foldl (fun acc c => <[c := m]> acc) idx chs !! ch = idx !! ch.
Proof.
  revert idx. induction chs as [|c chs IH]; intros idx Hout; [reflexivity|].
  apply not_elem_of_cons in Hout as [Hne Hout]. simpl.
  rewrite IH by exact Hout. apply lookup_insert_ne. congruence.
Qed.

Lemma add_module_run name m w :
  add_module C name m w =
  match add_submodule C name m (base w) with
  | Raise e => (Raise e, w)
  | Ok b =>
      (Ok tt,
       set_registry C b
         (<[slot_nr m := m]> (by_slot w))
         (foldl (fun acc ch => <[ch := m]> acc) (by_channel w) (channels m))
         (<[MODULE_KIND m := default [] (by_kind w !! MODULE_KIND m) ++ [m]]>
            (by_kind w)) w)
  end.
Proof. reflexivity. Qed.

(** C10. After [add_module(name, m)] has returned, [by_slot] maps the slot
    of [m] to [m], [by_channel] maps every channel of [m] to [m], the list
    of [by_kind] for the kind of [m] is the former list followed by [m],
    and the entries of the three indices for every other slot, channel and
    kind are as before. *)
Theorem add_module_indices name m w w' :
  add_module C name m w = (Ok tt, w') ->
  by_slot w' !! slot_nr m = Some m /\
  (forall ch, ch ∈ channels m -> by_channel w' !! ch = Some m) /\
  by_kind w' !! MODULE_KIND m =
    Some (default [] (by_kind w !! MODULE_KIND m) ++ [m]) /\
  (forall s, s <> slot_nr m -> by_slot w' !! s = by_slot w !! s) /\
  (forall ch, ch ∉ channels m -> by_channel w' !! ch = by_channel w !! ch) /\
  (forall k, k <> MODULE_KIND m -> by_kind w' !! k = by_kind w !! k).
Proof.
  rewrite add_module_run.
  destruct (add_submodule C name m (base w)) as [b|e]; [|discriminate].
  intros [= <-]. simpl. repeat split.
  - apply lookup_insert_eq.
  - intros ch Hin. apply register_channels_in, Hin.
  - apply lookup_insert_eq.
  - intros s Hs. apply lookup_insert_ne. congruence.
  - intros ch Hout. apply register_channels_out, Hout.
  - intros k Hk. apply lookup_insert_ne. congruence.
Qed.

(** C5 (amended). Whenever the base class accepts the name, [add_module]
    succeeds, whatever is already registered: afterwards the slot of the
    module and each of its channels map to the new module, so that an
    earlier owner of the slot or of a channel is replaced and a channel
    still has one owner.  Looking up a channel that is not registered
    raises [KeyError]. *)
Theorem add_module_replaces name m w b :
  add_submodule C name m (base w) = Ok b ->
  (add_module C name m w).1 = Ok tt /\
  by_slot (add_module C name m w).2 !! slot_nr m = Some m /\
  (forall ch, ch ∈ channels m ->
              by_channel (add_module C name m w).2 !! ch = Some m) /\
  (forall ch, by_channel w !! ch = None ->
              by_channel_getitem C ch w = (Raise (KeyError ch), w)).
Proof.
  intros Hbase. rewrite add_module_run, Hbase. simpl. repeat split.
  - apply lookup_insert_eq.
  - intros ch Hin. apply register_channels_in, Hin.
  - intros ch Hnone. unfold by_channel_getitem. rewrite Hnone. reflexivity.
Qed.

(** ** The three series of a sweep *)

(** C4 (amended). [get_raw] splits the parsed response with the fixed
    stride 3 and without any check of its length: entry [i] of series [k]
    is entry [k + 3 i] of the parsed sequence, in each of the four parallel
    sequences; the series have [(n + 2 - k) / 3] entries for a response of
    [n] readings, that is 3, 3 and 3 for 9 readings and 3, 3 and 2 for 8;
    the first two value series are returned and the third becomes the
    setpoints. *)
Theorem sweep_deinterleave (parsed_data : FMTResponse) w :
  let series k := deinterleave k parsed_data in
  let w' := (store C parsed_data w).2 in
  (store C parsed_data w).1 = Ok (value (series 0%nat), value (series 1%nat)) /\
  (param1 w' = Some (series 0%nat) /\ param2 w' = Some (series 1%nat) /\
   source_voltage w' = Some (series 2%nat) /\
   setpoints w' = [[value (series 2%nat)]; [value (series 2%nat)]]) /\
  (forall k i : nat,
     value (series k) !! i = value parsed_data !! (k + 3 * i)%nat /\
     status (series k) !! i = status parsed_data !! (k + 3 * i)%nat /\
     channel (series k) !! i = channel parsed_data !! (k + 3 * i)%nat /\
     type (series k) !! i = type parsed_data !! (k + 3 * i)%nat) /\
  (forall k : nat, (k < 3)%nat ->
     length (value (series k)) = ((length (value parsed_data) + 2 - k) / 3)%nat /\
     length (status (series k)) = ((length (status parsed_data) + 2 - k) / 3)%nat /\
     length (channel (series k)) = ((length (channel parsed_data) + 2 - k) / 3)%nat /\
     length (type (series k)) = ((length (type parsed_data) + 2 - k) / 3)%nat) /\
  (length (value parsed_data) = 9%nat ->
     map (fun k => length (value (series k))) [0; 1; 2]%nat = [3; 3; 3]%nat) /\
  (length (value parsed_data) = 8%nat ->
     map (fun k => length (value (series k))) [0; 1; 2]%nat = [3; 3; 2]%nat).
Proof.
  cbv zeta. split; [reflexivity|]. split; [simpl; auto|].
  split; [|split; [|split]].
  - intros k i. unfold deinterleave, slice_from_step. simpl.
    repeat split; apply every_nth_lookup; lia.
  - intros k Hk. unfold deinterleave, slice_from_step. simpl.
    repeat split; apply every_nth_length; exact Hk.
  - intros H9. unfold deinterleave, slice_from_step. simpl.
    rewrite !every_nth_length, H9 by lia. reflexivity.
  - intros H8. unfold deinterleave, slice_from_step. simpl.
    rewrite !every_nth_length, H8 by lia. reflexivity.
Qed.
End Session.

(** * The properties on the test bench *)

Section OnTheBench.

Import Bench.
Local Open Scope list_scope.

(** C3, counterexample. The sentinel of the claim, [0,"No Error."], is not
    the literal of [write]: when the error poll is answered with it,
    [write] raises [RuntimeError]; it returns when the poll is answered
    with the signed [+0,"No Error."]. *)
Lemma write_sentinel_is_signed :
  let unsigned := world_with [] (instrument "" [plain_no_error] (Ok "")) in
  let signed := world_with [] (instrument "" [no_error] (Ok "")) in
  plain_no_error <> no_error /\
  (write bench "FMT 1,1" unsigned).1 =
    Raise (RuntimeError
             (String.append "While setting this parameter received error: "
                            plain_no_error)) /\
  log (write bench "FMT 1,1" unsigned).2 = [EvWrite "FMT 1,1"; EvAsk "ERRX?" 5%float] /\
  (write bench "FMT 1,1" signed).1 = Ok tt /\
  log (write bench "FMT 1,1" signed).2 = [EvWrite "FMT 1,1"; EvAsk "ERRX?" 5%float].
Proof. cbv zeta. repeat split; vm_compute; congruence. Qed.

Lemma write_checks_error_queue_witness :
  let w := world_with [] (instrument "" ["+100,Undefined GPIB command."] (Ok "")) in
  log (write bench "FMT 1,1" w).2 = [EvWrite "FMT 1,1"; EvAsk "ERRX?" 5%float] /\
  (write bench "FMT 1,1" w).1 =
    Raise (RuntimeError
             "While setting this parameter received error: +100,Undefined GPIB command.").
Proof.
  cbv zeta.
  destruct (write_checks_error_queue bench "FMT 1,1"
              (world_with [] (instrument "" ["+100,Undefined GPIB command."] (Ok "")))
              "+100,Undefined GPIB command.")
    as (Hlog & _ & Hraise).
  - vm_compute. reflexivity.
  - vm_compute. reflexivity.
  - split; [exact Hlog|]. apply Hraise. vm_compute. congruence.
Defined.

Lemma sweep_execute_timeout_witness :
  let w := lab "TM1;FMT5,0;MM2,1,2" (Ok nine_readings) in
  xe bench <> lrn_query_settings bench /\
  xe bench <> step_delay_query bench /\
  xe bench <> sweep_steps_query bench /\
  xe bench <> errx_query bench None /\
  In (EvAsk "XE" 1536%float) (log (get_raw bench w).2) /\
  exists mode first second smu step_delay step_count,
    (get_measurement_mode bench w).1 = Ok mode /\
    mm_channels mode = [first; second] /\
    by_channel w !! first = Some smu /\
    (iv_sweep_step_delay bench (sweep_source bench w).2).1 = Ok step_delay /\
    (iv_sweep_sweep_steps bench
       (iv_sweep_step_delay bench (sweep_source bench w).2).2).1 = Ok step_count /\
    rbind (calculated_time smu step_delay)
          (fun calculated => new_timeout step_delay calculated step_count)
      = Ok 1536%float /\
    timeout_formula (_average_coefficient smu) (power_line_frequency smu)
                    step_delay step_count
      = Ok 1536%float.
Proof.
  cbv zeta.
  assert (H1 : xe bench <> lrn_query_settings bench) by (vm_compute; congruence).
  assert (H2 : xe bench <> step_delay_query bench) by (vm_compute; congruence).
  assert (H3 : xe bench <> sweep_steps_query bench) by (vm_compute; congruence).
  assert (H4 : xe bench <> errx_query bench None) by (vm_compute; congruence).
  assert (Hin : In (EvAsk "XE" 1536%float)
                   (log (get_raw bench (lab "TM1;FMT5,0;MM2,1,2" (Ok nine_readings))).2))
    by (vm_compute; tauto).
  split; [exact H1|]. split; [exact H2|]. split; [exact H3|]. split; [exact H4|].
  split; [exact Hin|].
  destruct (sweep_execute_timeout bench (lab "TM1;FMT5,0;MM2,1,2" (Ok nine_readings))
              H1 H2 H3 H4)
    as [(evs & Hlog & Hev & _) _].
  apply Hev. change (xe bench) with "XE".
  assert (Hevs : log (get_raw bench (lab "TM1;FMT5,0;MM2,1,2" (Ok nine_readings))).2 = evs)
    by (rewrite Hlog; reflexivity).
  rewrite <- Hevs. exact Hin.
Defined.

Lemma sweep_preconditions_witness :
  let w3 := lab "TM1;FMT5,0;MM2,1,2,3" (Ok nine_readings) in
  let w2 := lab "TM1;FMT5,0;MM2,2,1" (Ok nine_readings) in
  ((get_raw bench w3).1 =
     Raise (ValueError
              "Two measurement channels are needed, one for gate current and other for source drain current.") /\
   log (get_raw bench w3).2 = [EvAsk "*LRN? 31" 5%float]) /\
  ((get_raw bench w2).1 =
     Raise (Exception "Sweep setup has not yet been run successfully on B1500_smu2") /\
   log (get_raw bench w2).2 = [EvAsk "*LRN? 31" 5%float]).
Proof.
  cbv zeta. split.
  - refine (proj1 (sweep_preconditions bench
                     (lab "TM1;FMT5,0;MM2,1,2,3" (Ok nine_readings))
                     (mkMeasurementMode 2 [1; 2; 3]) _) _).
    + vm_compute. reflexivity.
    + vm_compute. congruence.
  - refine (proj2 (sweep_preconditions bench
                     (lab "TM1;FMT5,0;MM2,2,1" (Ok nine_readings))
                     (mkMeasurementMode 2 [2; 1]) _) 2 1
                  (smu 2 4 false) _ _ _).
    + vm_compute. reflexivity.
    + reflexivity.
    + vm_compute. reflexivity.
    + reflexivity.
Defined.

Lemma restore_after_execute_witness :
  let w := lab "TM1;FMT5,0;MM2,1,2" (Raise (VisaIOError "timeout")) in
  let w2 := (prepare w).2 in
  let w3 := (execute bench 1536%float w2).2 in
  (prepare w).1 = Ok (1536%float, mkFormatAndMode 5 0) /\
  (execute bench 1536%float w2).1 = Raise (VisaIOError "timeout") /\
  (get_raw bench w).1 = Raise (VisaIOError "timeout") /\
  exists tail,
    log (get_raw bench w).2 = log w3 ++ EvWrite "FMT 5,0" :: tail /\
    existsb is_write tail = false.
Proof.
  cbv zeta.
  assert (Hprep : (prepare (lab "TM1;FMT5,0;MM2,1,2" (Raise (VisaIOError "timeout")))).1 =
                  Ok (1536%float, mkFormatAndMode 5 0)) by (vm_compute; reflexivity).
  destruct (restore_after_execute bench
              (lab "TM1;FMT5,0;MM2,1,2" (Raise (VisaIOError "timeout")))
              1536%float (mkFormatAndMode 5 0) Hprep)
    as (tail & Hlog & Hwrites & Herr).
  split; [exact Hprep|]. split; [vm_compute; reflexivity|]. split.
  - apply Herr; vm_compute; reflexivity.
  - exists tail. split; [exact Hlog|exact Hwrites].
Defined.

(** C7, counterexample. In manual mode the coefficient 2.5 is accepted
    without an error, and the command is sent with the coefficient 2; the
    coefficients 0 and 1024, outside the range 1 to 1023 of that mode, are
    sent as they are: the call returns and the command has crossed the
    session. *)
Lemma coefficient_sent_unchecked :
  let w := world_with [] (instrument "" [] (Ok "")) in
  ((_setup_integration_time bench 0 1 (Some (CoeffFloat 2.5%float)) w).1 = Ok tt /\
   log (_setup_integration_time bench 0 1 (Some (CoeffFloat 2.5%float)) w).2 =
     [EvWrite "AIT 0,1,2"; EvAsk "ERRX?" 5%float]) /\
  ((_setup_integration_time bench 0 1 (Some (CoeffInt 0)) w).1 = Ok tt /\
   log (_setup_integration_time bench 0 1 (Some (CoeffInt 0)) w).2 =
     [EvWrite "AIT 0,1,0"; EvAsk "ERRX?" 5%float]) /\
  ((_setup_integration_time bench 0 1 (Some (CoeffInt 1024)) w).1 = Ok tt /\
   log (_setup_integration_time bench 0 1 (Some (CoeffInt 1024)) w).2 =
     [EvWrite "AIT 0,1,1024"; EvAsk "ERRX?" 5%float]).
Proof. cbv zeta. repeat split; vm_compute; reflexivity. Qed.

Lemma setup_integration_time_coercion_witness :
  let w := world_with [] (instrument "" [] (Ok "")) in
  PyNum.int_of_float 1024.5%float = Ok 1024 /\
  _setup_integration_time bench 0 1 (Some (CoeffFloat 1024.5%float)) w =
  _setup_integration_time bench 0 1 (Some (CoeffInt 1024)) w /\
  _setup_integration_time bench 0 1 (Some (CoeffFloat 1024.5%float)) w =
  write bench "AIT 0,1,1024" w /\
  exists tail,
    log (_setup_integration_time bench 0 1 (Some (CoeffFloat 1024.5%float)) w).2 =
    log w ++ EvWrite "AIT 0,1,1024" :: tail.
Proof.
  cbv zeta.
  assert (H : PyNum.int_of_float 1024.5%float = Ok 1024) by (vm_compute; reflexivity).
  destruct (setup_integration_time_coercion bench 0 1 1024.5%float 1024
              (world_with [] (instrument "" [] (Ok ""))) H) as (Heq & Hsent & _).
  split; [exact H|]. split; [exact Heq|].
  apply Hsent. vm_compute. reflexivity.
Defined.

Lemma missing_tag_fails_witness :
  let w := lab "TM1;AV1,0" (Ok nine_readings) in
  (get_measurement_mode bench w).1 =
    Raise (ValueError "Measurement Mode (MM) not found.") /\
  (get_response_format_and_mode bench w).1 =
    Raise (ValueError "Measurement Mode (FMT) not found.").
Proof.
  cbv zeta.
  destruct (missing_tag_fails bench (lab "TM1;AV1,0" (Ok nine_readings)) "TM1;AV1,0")
    as (Hmm & Hfmt).
  - vm_compute. reflexivity.
  - split; [apply Hmm|apply Hfmt]; vm_compute; reflexivity.
Defined.

Lemma measurement_mode_round_trip_witness :
  let w := lab "MM1,3,5;" (Ok nine_readings) in
  let w1 := (set_measurement_mode bench 1 (Some [3; 5]) w).2 in
  log w1 = [EvWrite "MM 1,3,5"; EvAsk "ERRX?" 5%float] /\
  (get_measurement_mode bench w1).1 = Ok (mkMeasurementMode 1 [3; 5]).
Proof.
  cbv zeta. split; [vm_compute; reflexivity|].
  refine (proj2 (measurement_mode_round_trip bench (lab "MM1,3,5;" (Ok nine_readings)) _ _)).
  - vm_compute. reflexivity.
  - vm_compute. reflexivity.
Defined.

Lemma add_module_indices_witness :
  let w := world_with sweep_modules (instrument "" [] (Ok "")) in
  let m := smu 3 1 false in
  let w' := (add_module bench "smu3" m w).2 in
  by_slot w' !! 3 = Some m /\
  by_channel w' !! 3 = Some m /\
  by_kind w' !! SMU = Some (sweep_modules ++ [m]) /\
  by_slot w' !! 1 = by_slot w !! 1 /\
  by_channel w' !! 2 = by_channel w !! 2 /\
  by_kind w' !! CMU = by_kind w !! CMU.
Proof.
  cbv zeta.
  destruct (add_module_indices bench "smu3" (smu 3 1 false)
              (world_with sweep_modules (instrument "" [] (Ok "")))
              (add_module bench "smu3" (smu 3 1 false)
                 (world_with sweep_modules (instrument "" [] (Ok "")))).2)
    as (Hslot & Hchan & Hkind & Hslots & Hchans & Hkinds).
  - apply run_eq. vm_compute. reflexivity.
  - split; [exact Hslot|]. split; [apply Hchan; vm_compute; left|].
    split; [exact Hkind|]. split; [apply Hslots; discriminate|].
    split; [apply Hchans|apply Hkinds; discriminate].
    vm_compute. intros Hin. inversion Hin as [|? ? ? Hnil]; inversion Hnil.
Defined.

(** C5, counterexample. Channel 1 and slot 1 belong to the first
    source-measure unit; registering a capacitance unit that claims the
    same slot and channel succeeds, and both now resolve to the newcomer. *)
Lemma duplicate_registration_overwrites :
  let w := world_with sweep_modules (instrument "" [] (Ok "")) in
  let w' := (add_module bench "cmu1" cmu1 w).2 in
  by_slot w !! 1 = Some (smu 1 (-2) true) /\
  by_channel w !! 1 = Some (smu 1 (-2) true) /\
  (add_module bench "cmu1" cmu1 w).1 = Ok tt /\
  by_slot w' !! 1 = Some cmu1 /\
  by_channel w' !! 1 = Some cmu1 /\
  cmu1 <> smu 1 (-2) true.
Proof. cbv zeta. repeat split; try (vm_compute; reflexivity). vm_compute. congruence. Qed.

Lemma add_module_replaces_witness :
  let w := world_with sweep_modules (instrument "" [] (Ok "")) in
  (add_module bench "cmu1" cmu1 w).1 = Ok tt /\
  by_slot (add_module bench "cmu1" cmu1 w).2 !! 1 = Some cmu1 /\
  by_channel (add_module bench "cmu1" cmu1 w).2 !! 1 = Some cmu1 /\
  by_channel_getitem bench 7 w = (Raise (KeyError 7), w).
Proof.
  cbv zeta.
  destruct (add_module_replaces bench "cmu1" cmu1
              (world_with sweep_modules (instrument "" [] (Ok "")))
              ["cmu1"; "smu2"; "smu1"])
    as (Hok & Hslot & Hchan & Hmissing).
  - vm_compute. reflexivity.
  - split; [exact Hok|]. split; [exact Hslot|]. split.
    + apply Hchan. vm_compute. left.
    + apply Hmissing. vm_compute. reflexivity.
Defined.

(** C4, counterexample. The instrument answers the sweep with 8 readings,
    which is not a multiple of 3: the run does not fail, it returns two
    series of 3 values and keeps 2 setpoints. *)
Lemma eight_readings_accepted :
  let w := lab "TM1;FMT5,0;MM2,1,2" (Ok eight_readings) in
  rbind (fmt_response_base_parser bench eight_readings)
        (fun parsed_data => Ok (length (value parsed_data))) = Ok 8%nat /\
  (get_raw bench w).1 =
    Ok ([1%float; 4%float; 7%float], [2%float; 5%float; 8%float]) /\
  setpoints (get_raw bench w).2 = [[[3%float; 6%float]]; [[3%float; 6%float]]].
Proof. cbv zeta. repeat split; vm_compute; reflexivity. Qed.


Lemma sweep_deinterleave_witness :
  let parsed_data :=
    mkFMTResponse [1; 2; 3; 4; 5; 6; 7; 8; 9]%float
                  ["N"; "N"; "N"; "N"; "N"; "N"; "N"; "N"; "C"]
                  [1; 2; 1; 1; 2; 1; 1; 2; 1]
                  ["I"; "I"; "V"; "I"; "I"; "V"; "I"; "I"; "V"] in
  let w := lab "TM1;FMT5,0;MM2,1,2" (Ok nine_readings) in
  (store bench parsed_data w).1 = Ok ([1; 4; 7]%float, [2; 5; 8]%float) /\
  source_voltage (store bench parsed_data w).2 =
    Some (mkFMTResponse [3; 6; 9]%float ["N"; "N"; "C"] [1; 1; 1] ["V"; "V"; "V"]) /\
  map (fun k => length (value (deinterleave k parsed_data))) [0; 1; 2]%nat
    = [3; 3; 3]%nat.
Proof.
  cbv zeta.
  pose proof (sweep_deinterleave bench
                (mkFMTResponse [1; 2; 3; 4; 5; 6; 7; 8; 9]%float
                   ["N"; "N"; "N"; "N"; "N"; "N"; "N"; "N"; "C"]
                   [1; 2; 1; 1; 2; 1; 1; 2; 1]
                   ["I"; "I"; "V"; "I"; "I"; "V"; "I"; "I"; "V"])
                (lab "TM1;FMT5,0;MM2,1,2" (Ok nine_readings))) as H.
  cbv zeta in H.
  destruct H as (Hres & (_ & _ & Hsv & _) & _ & _ & Hnine & _).
  split; [exact Hres|]. split; [exact Hsv|].
  apply Hnine. reflexivity.
Defined.

End OnTheBench.

(** * Further properties *)

(** ** The three series, taken together *)

Lemma every_nth_cons3 {A} (x y z : A) (l : list A) :
  every_nth 0 3 (x :: y :: z :: l) = x :: every_nth 0 3 l /\
  every_nth 1 3 (x :: y :: z :: l) = y :: every_nth 1 3 l /\
  every_nth 2 3 (x :: y :: z :: l) = z :: every_nth 2 3 l.
Proof. repeat split; reflexivity. Qed.

Lemma interleave3_every_nth {A} (l : list A) :
  interleave3 (every_nth 0 3 l) (every_nth 1 3 l) (every_nth 2 3 l) = l.
Proof.
  assert (H : forall n (l : list A), (length l <= n)%nat ->
            interleave3 (every_nth 0 3 l) (every_nth 1 3 l) (every_nth 2 3 l) = l).
  { intros n. induction n as [|n IH]; intros k Hk.
    - destruct k; [reflexivity|simpl in Hk; lia].
    - destruct k as [|x [|y [|z k]]]; try reflexivity.
      destruct (every_nth_cons3 x y z k) as (-> & -> & ->).
      simpl. rewrite IH by (simpl in Hk; lia). reflexivity. }
  apply (H (length l)). lia.
Qed.

(** X1. Interleaving the three series that [get_raw] stores gives back the
    parsed response, in each of its four sequences: every reading goes to
    exactly one series, in order. *)
Theorem sweep_series_reassemble (parsed_data : FMTResponse) :
  let series k := deinterleave k parsed_data in
  interleave3 (value (series 0%nat)) (value (series 1%nat)) (value (series 2%nat))
    = value parsed_data /\
  interleave3 (status (series 0%nat)) (status (series 1%nat)) (status (series 2%nat))
    = status parsed_data /\
  interleave3 (channel (series 0%nat)) (channel (series 1%nat)) (channel (series 2%nat))
    = channel parsed_data /\
  interleave3 (type (series 0%nat)) (type (series 1%nat)) (type (series 2%nat))
    = type parsed_data.
Proof.
  cbv zeta. unfold deinterleave, slice_from_step. simpl.
  repeat split; apply interleave3_every_nth.
Qed.

Section MoreSession.

Context (C : Collaborators).
Implicit Types (w : World C) (evs : list Event).
Local Open Scope list_scope.

(** X2. What [get_raw] returns against the shape it declares: the declared
    shape is the length of the source-voltage series, a third of the
    readings rounded down.  When the number of readings is a multiple of 3
    the two returned series have that length; otherwise the first returned
    series is one entry longer than the declared shape. *)
Theorem sweep_shapes (parsed_data : FMTResponse) w :
  let n := length (value parsed_data) in
  let w' := (store C parsed_data w).2 in
  shapes w' = [[(n / 3)%nat]; [(n / 3)%nat]] /\
  (forall a b, (store C parsed_data w).1 = Ok (a, b) ->
     ((n mod 3 = 0)%nat -> length a = (n / 3)%nat /\ length b = (n / 3)%nat) /\
     ((n mod 3 <> 0)%nat -> length a = S (n / 3))).
Proof.
  cbv zeta. cbn -[Nat.div Nat.modulo]. unfold slice_from_step.
  rewrite (every_nth_length (value parsed_data) 2) by lia.
  replace (length (value parsed_data) + 2 - 2)%nat with (length (value parsed_data)) by lia.
  split; [reflexivity|].
  intros a b [= <- <-].
  rewrite (every_nth_length (value parsed_data) 0), (every_nth_length (value parsed_data) 1) by lia.
  set (n := length (value parsed_data)).
  pose proof (Nat.div_mod_eq n 3) as Hn.
  pose proof (Nat.mod_upper_bound n 3 ltac:(lia)) as Hr.
  split.
  - intros H0. split; symmetry.
    + apply Nat.div_unique with (r := 2%nat); lia.
    + apply Nat.div_unique with (r := 1%nat); lia.
  - intros Hne. symmetry.
    destruct (Nat.eq_dec (n mod 3)%nat 1%nat) as [H1|H1].
    + apply Nat.div_unique with (r := 0%nat); lia.
    + apply Nat.div_unique with (r := 1%nat); lia.
Qed.

(** ** What the session traffic leaves alone *)

Lemma same_refl w : same_instrument w w /\ same_sweep_data w w.
Proof. unfold same_instrument, same_sweep_data. auto 10. Qed.

Lemma same_trans w1 w2 w3 :
  same_instrument w1 w2 /\ same_sweep_data w1 w2 ->
  same_instrument w2 w3 /\ same_sweep_data w2 w3 ->
  same_instrument w1 w3 /\ same_sweep_data w1 w3.
Proof.
  unfold same_instrument, same_sweep_data.
  intros ((A1 & A2 & A3 & A4 & A5) & (A6 & A7 & A8 & A9 & A10))
         ((B1 & B2 & B3 & B4 & B5) & (B6 & B7 & B8 & B9 & B10)).
  repeat split; congruence.
Qed.

Lemma after_ask_same cmd w :
  same_instrument w (after_ask cmd w) /\ same_sweep_data w (after_ask cmd w).
Proof. unfold same_instrument, same_sweep_data. simpl. auto 10. Qed.

Lemma after_write_same cmd w :
  same_instrument w (after_write cmd w) /\ same_sweep_data w (after_write cmd w).
Proof. unfold same_instrument, same_sweep_data. simpl. auto 10. Qed.

Lemma write_same cmd w :
  same_instrument w (write C cmd w).2 /\ same_sweep_data w (write C cmd w).2.
Proof.
  rewrite write_run.
  pose proof (after_write_same cmd w) as H1.
  pose proof (after_ask_same (errx_query C None) (after_write cmd w)) as H2.
  pose proof (same_trans _ _ _ H1 H2) as H12.
  destruct (visa_write C cmd (dev w)).1; [|exact H1].
  cbv zeta.
  destruct (visa_ask C _ _ (dev (after_write cmd w))).1 as [r|e]; [|exact H12].
  destruct (String.eqb r no_error); exact H12.
Qed.

Lemma execute_same t w :
  same_instrument w (execute C t w).2 /\ same_sweep_data w (execute C t w).2.
Proof.
  rewrite execute_run.
  pose proof (write_same (fmt C 1 1) w) as H1.
  destruct (write C (fmt C 1 1) w) as [[[]|e] w1]; simpl in *; [|exact H1].
  eapply same_trans; [exact H1|].
  unfold same_instrument, same_sweep_data. simpl. auto 10.
Qed.

Lemma write_ok_inv cmd w :
  (write C cmd w).1 = Ok tt ->
  (visa_write C cmd (dev w)).1 = Ok tt /\
  (visa_ask C (errx_query C None) (timeout w) (dev (after_write cmd w))).1 = Ok no_error /\
  log (write C cmd w).2 = log w ++ [EvWrite cmd; EvAsk (errx_query C None) (timeout w)].
Proof.
  rewrite write_run.
  destruct (visa_write C cmd (dev w)).1 as [[]|e]; [|discriminate].
  cbv zeta. change (timeout (after_write cmd w)) with (timeout w).
  destruct (visa_ask C _ _ (dev (after_write cmd w))).1 as [r|e]; [|discriminate].
  destruct (String.eqb r no_error) eqn:E; [|discriminate].
  apply String.eqb_eq in E. subst r. intros _.
  split; [reflexivity|]. split; [reflexivity|].
  simpl. rewrite <- app_assoc. reflexivity.
Qed.

Lemma sweep_timing_same w :
  same_instrument w (sweep_timing w).2 /\ same_sweep_data w (sweep_timing w).2.
Proof.
  rewrite sweep_timing_run. cbv zeta.
  pose proof (after_ask_same (lrn_query_settings C) w) as H1.
  set (w1 := after_ask (lrn_query_settings C) w) in *.
  pose proof (same_trans _ _ _ H1 (after_ask_same (step_delay_query C) w1)) as H2.
  set (w2 := after_ask (step_delay_query C) w1) in *.
  pose proof (same_trans _ _ _ H2 (after_ask_same (sweep_steps_query C) w2)) as H3.
  destruct (checked_source w) as [smu|e]; [|exact H1].
  destruct (iv_sweep_step_delay C w1).1 as [d|e]; [|exact H2].
  destruct (calculated_time smu d) as [c|e]; [|exact H2].
  destruct (iv_sweep_sweep_steps C w2).1 as [n|e]; [|exact H3].
  destruct (new_timeout d c n); exact H3.
Qed.

Lemma prepare_same w :
  same_instrument w (prepare w).2 /\ same_sweep_data w (prepare w).2.
Proof.
  rewrite prepare_run.
  pose proof (sweep_timing_same w) as H3.
  destruct (sweep_timing w) as [[timing|e] w3]; cbn [fst snd] in *; [|exact H3].
  pose proof (same_trans _ _ _ H3 (after_ask_same (lrn_query_settings C) w3)) as H4.
  destruct (rbind _ (decode_format_and_mode C)); exact H4.
Qed.

Lemma get_raw_same w :
  same_instrument w (get_raw C w).2 /\
  ((exists r, (get_raw C w).1 = Ok r) \/ same_sweep_data w (get_raw C w).2).
Proof.
  rewrite get_raw_prepare.
  pose proof (prepare_same w) as H2.
  destruct (prepare w) as [[[t fm]|e] w2]; cbn [fst snd] in *.
  2:{ split; [apply H2|right; apply H2]. }
  cbv zeta.
  pose proof (same_trans _ _ _ H2 (execute_same t w2)) as H3.
  pose proof (same_trans _ _ _ H3
                (write_same (fmt C (fmt_format fm) (fmt_mode fm)) (execute C t w2).2)) as H4.
  fold (restore C fm (execute C t w2).2) in H4.
  destruct (restore C fm (execute C t w2).2).1; [|split; [apply H4|right; apply H4]].
  destruct (execute C t w2).1 as [pd|e]; [|split; [apply H4|right; apply H4]].
  split.
  - destruct H4 as (H4 & _). unfold same_instrument in *. simpl. exact H4.
  - left. eexists. reflexivity.
Qed.


(** X4. A run of [get_raw] that raises leaves the results of the previous
    sweep in place: the three stored series, the shapes and the setpoints
    are written only by a run that returns. *)
Theorem failed_sweep_keeps_data w e :
  (get_raw C w).1 = Raise e ->
  same_sweep_data w (get_raw C w).2.
Proof.
  intros Hraise.
  destruct (get_raw_same w) as (_ & [(r & Hr)|Hsame]); [|exact Hsame].
  rewrite Hr in Hraise. discriminate.
Qed.

(** ** The traffic of a sweep *)


(** A write puts the command on the session, followed by at most one poll
    of the error queue. *)
Lemma write_polls cmd w :
  exists polls,
    log (write C cmd w).2 = log w ++ EvWrite cmd :: polls /\
    timeout (write C cmd w).2 = timeout w /\
    (polls = [] \/ polls = [EvAsk (errx_query C None) (timeout w)]).
Proof.
  rewrite write_run.
  destruct (visa_write C cmd (dev w)).1.
  - exists [EvAsk (errx_query C None) (timeout w)]. cbv zeta.
    destruct (visa_ask C _ _ (dev (after_write cmd w))).1 as [r|e];
      [destruct (String.eqb r no_error)|]; simpl;
      rewrite <- app_assoc; auto.
  - exists []. simpl. auto.
Qed.


(** X6. When the first channel of the measurement mode is not a registered
    channel, [get_raw] raises [KeyError] for that channel, and the
    settings query is the only traffic.  When the averaging coefficient of
    the sweep source is negative and its line frequency is 0, the run
    first reads the step delay from the instrument: it raises
    [ZeroDivisionError] if that read succeeds and the error of the read
    otherwise, and in both cases the traffic is the settings query
    followed by the query for the step delay.  Nothing has been written to
    the instrument. *)
Theorem sweep_source_failures w mode first second :
  (get_measurement_mode C w).1 = Ok mode ->
  mm_channels mode = [first; second] ->
  (by_channel w !! first = None ->
   (get_raw C w).1 = Raise (KeyError first) /\
   log (get_raw C w).2 = log w ++ [EvAsk (lrn_query_settings C) (timeout w)]) /\
  (forall smu,
     by_channel w !! first = Some smu ->
     setup_fnc_already_run smu = true ->
     _average_coefficient smu < 0 ->
     power_line_frequency smu = 0 ->
     (get_raw C w).1 =
       match (iv_sweep_step_delay C (sweep_source C w).2).1 with
       | Ok _ => Raise ZeroDivisionError
       | Raise e => Raise e
       end /\
     log (get_raw C w).2 = log w ++ [EvAsk (lrn_query_settings C) (timeout w);
                                     EvAsk (step_delay_query C) (timeout w)]).
Proof.
  rewrite get_measurement_mode_run. simpl. intros Hmode Hch.
  rewrite get_raw_prepare, prepare_run, sweep_timing_run. cbv zeta.
  rewrite sweep_source_run. cbn [snd].
  unfold checked_source. rewrite Hmode. simpl.
  unfold check_mode. rewrite Hch. split.
  - intros ->. simpl. auto.
  - intros smu -> -> Hneg Hfreq. simpl.
    destruct (iv_sweep_step_delay C (after_ask (lrn_query_settings C) w)).1 as [d|e].
    + unfold calculated_time. apply Z.ltb_lt in Hneg. rewrite Hneg, Hfreq. simpl.
      rewrite <- app_assoc. auto.
    + simpl. rewrite <- app_assoc. auto.
Qed.

(** X7. When the format and mode pair cannot be read (the query fails, the
    tag [FMT] is missing, a field is not a member of its enumeration),
    [get_raw] raises that error after four queries: the settings query,
    the two reads of the sweep settings and the settings query again.  The
    format is not forced and nothing is written to the instrument. *)
Theorem unreadable_format_stops_sweep w timing e :
  (sweep_timing w).1 = Ok timing ->
  (get_response_format_and_mode C (sweep_timing w).2).1 = Raise e ->
  (get_raw C w).1 = Raise e /\
  log (get_raw C w).2 =
    log w ++ [EvAsk (lrn_query_settings C) (timeout w);
              EvAsk (step_delay_query C) (timeout w);
              EvAsk (sweep_steps_query C) (timeout w);
              EvAsk (lrn_query_settings C) (timeout w)].
Proof.
  rewrite get_raw_prepare, prepare_run.
  destruct (sweep_timing_trace C w) as (evs & (L & T & _) & _ & Hthree).
  destruct (sweep_timing w) as [[timing'|e'] w3]; cbn [fst snd] in *; [|discriminate].
  intros _. rewrite get_response_format_and_mode_run. cbn [fst].
  intros ->. cbn [fst snd]. split; [reflexivity|].
  unfold after_ask. simpl. rewrite L, T, (Hthree _ eq_refl), <- app_assoc. reflexivity.
Qed.

(** X8. When the write that forces the format fails, the sweep-execute
    query is not sent, and the restoring write is attempted all the same:
    the traffic after the format was read consists of the two writes, each
    followed by at most one poll of the error queue, and no sweep-execute
    query is among it.  The error of the forcing write is the error of the
    run when the restoring write succeeds. *)
Theorem failed_format_write_skips_sweep w t fm e :
  xe C <> errx_query C None ->
  (prepare w).1 = Ok (t, fm) ->
  let w2 := (prepare w).2 in
  (write C (fmt C 1 1) w2).1 = Raise e ->
  exists polls1 polls2,
    log (get_raw C w).2 =
      log w2 ++ (EvWrite (fmt C 1 1) :: polls1) ++
                (EvWrite (fmt C (fmt_format fm) (fmt_mode fm)) :: polls2) /\
    (polls1 = [] \/ polls1 = [EvAsk (errx_query C None) (timeout w)]) /\
    (polls2 = [] \/ polls2 = [EvAsk (errx_query C None) (timeout w)]) /\
    (forall t', ~ In (EvAsk (xe C) t')
                     ((EvWrite (fmt C 1 1) :: polls1) ++
                      (EvWrite (fmt C (fmt_format fm) (fmt_mode fm)) :: polls2))) /\
    ((restore C fm (execute C t w2).2).1 = Ok tt -> (get_raw C w).1 = Raise e).
Proof.
  intros Hxe. rewrite get_raw_prepare.
  destruct (prepare_trace C w) as (evs0 & (_ & T0 & _) & _).
  destruct (prepare w) as [[[t' fm']|e'] w2]; cbn [fst snd] in *; [|discriminate].
  intros [= -> ->]. cbv zeta. intros Hw.
  destruct (write_polls (fmt C 1 1) w2) as (polls1 & L1 & T1 & P1).
  assert (Hex : execute C t w2 = (Raise e, (write C (fmt C 1 1) w2).2)).
  { rewrite execute_run. destruct (write C (fmt C 1 1) w2) as [[[]|e'] w3];
      simpl in *; [discriminate|]. congruence. }
  rewrite Hex. cbn [fst snd].
  destruct (write_polls (fmt C (fmt_format fm) (fmt_mode fm)) (write C (fmt C 1 1) w2).2)
    as (polls2 & L2 & _ & P2).
  fold (restore C fm (write C (fmt C 1 1) w2).2) in L2.
  rewrite T1 in P2. rewrite T0 in P1, P2.
  exists polls1, polls2.
  assert (L : log (restore C fm (write C (fmt C 1 1) w2).2).2 =
              log w2 ++ (EvWrite (fmt C 1 1) :: polls1) ++
                        EvWrite (fmt C (fmt_format fm) (fmt_mode fm)) :: polls2).
  { rewrite L2, L1, <- app_assoc. reflexivity. }
  assert (Hno : forall t', ~ In (EvAsk (xe C) t')
                     ((EvWrite (fmt C 1 1) :: polls1) ++
                      (EvWrite (fmt C (fmt_format fm) (fmt_mode fm)) :: polls2))).
  { intros t' Hin. apply in_app_or in Hin.
    destruct Hin as [[Heq|Hin]|[Heq|Hin]]; try discriminate.
    - destruct P1 as [->| ->]; [destruct Hin|].
      destruct Hin as [Heq|[]]. injection Heq as Hcmd _. auto.
    - destruct P2 as [->| ->]; [destruct Hin|].
      destruct Hin as [Heq|[]]. injection Heq as Hcmd _. auto. }
  destruct (restore C fm (write C (fmt C 1 1) w2).2).1 as [[]|e'].
  - cbn [fst snd]. split; [exact L|]. repeat (split; [assumption|]). reflexivity.
  - cbn [fst snd]. split; [exact L|]. repeat (split; [assumption|]). discriminate.
Qed.

(** X9. When the restoring write raises, its error is the error of the run
    even if the sweep itself succeeded: the readings are parsed and then
    dropped, and the stored series are those of the previous sweep. *)
Theorem failed_restore_masks_sweep w t fm e :
  (prepare w).1 = Ok (t, fm) ->
  let w2 := (prepare w).2 in
  (restore C fm (execute C t w2).2).1 = Raise e ->
  (get_raw C w).1 = Raise e /\
  same_sweep_data w (get_raw C w).2.
Proof.
  intros Hprep w2 Hres.
  assert (Hraise : (get_raw C w).1 = Raise e).
  { revert Hprep Hres. unfold w2. clear w2.
    rewrite get_raw_prepare.
    destruct (prepare w) as [[[t' fm']|e'] w2]; cbn [fst snd]; [|discriminate].
    intros [= -> ->] Hres. cbv zeta. rewrite Hres. reflexivity. }
  split; [exact Hraise|].
  destruct (get_raw_same w) as (_ & [(r & Hr)|Hsame]); [|exact Hsame].
  rewrite Hr in Hraise. discriminate.
Qed.

End MoreSession.

(** ** Reading the tagged fields *)

Lemma at_terminator_cons (c : ascii) (s : string) :
  Ascii.eqb c ";" = false -> Ascii.eqb c PyStr.newline = false ->
  Re.at_terminator (String c s) = false.
Proof.
  destruct c as [[] [] [] [] [] [] [] []]; destruct s; simpl; congruence.
Qed.

Lemma second_group_unfold (s acc : string) :
  Re.second_group s acc =
  if Re.at_terminator s then Some acc
  else match s with
       | String c s' =>
           if Ascii.eqb c PyStr.newline then None
           else Re.second_group s' (String.append acc (String c EmptyString))
       | EmptyString => None
       end.
Proof. destruct s; reflexivity. Qed.

Lemma append_nil_l (s : string) : String.append EmptyString s = s.
Proof. reflexivity. Qed.

Lemma append_cons_l (c : ascii) (a s : string) :
  String.append (String c a) s = String c (String.append a s).
Proof. reflexivity. Qed.

Lemma append_nil_r (s : string) : String.append s EmptyString = s.
Proof.
  induction s as [|c s IH]; [reflexivity|].
  rewrite append_cons_l, IH. reflexivity.
Qed.

Lemma append_cons_assoc (acc : string) (c : ascii) (s : string) :
  String.append (String.append acc (String c EmptyString)) s =
  String.append acc (String c s).
Proof.
  induction acc as [|a acc IH]; [reflexivity|].
  rewrite !append_cons_l, IH. reflexivity.
Qed.

Lemma second_group_app (b rest acc : string) :
  free_of [";"%char; PyStr.newline] b = true ->
  Re.at_terminator rest = true ->
  Re.second_group (String.append b rest) acc = Some (String.append acc b).
Proof.
  revert acc. induction b as [|c b IH]; intros acc Hb Hrest.
  - rewrite append_nil_l, append_nil_r, second_group_unfold, Hrest. reflexivity.
  - cbn [free_of] in Hb. apply andb_true_iff in Hb as [Hc Hb].
    apply negb_true_iff in Hc. cbn [existsb] in Hc.
    apply orb_false_iff in Hc as [Hsemi Hnl].
    apply orb_false_iff in Hnl as [Hnl _].
    rewrite append_cons_l, second_group_unfold.
    rewrite (at_terminator_cons c _ Hsemi Hnl), Hnl.
    rewrite IH by assumption. rewrite append_cons_assoc. reflexivity.
Qed.

Lemma first_group_unfold (c : ascii) (s acc : string) :
  Re.first_group (String c s) acc =
  let extend :=
    if Ascii.eqb c PyStr.newline then None
    else Re.first_group s (String.append acc (String c EmptyString)) in
  if Ascii.eqb c "," then
    match Re.second_group s EmptyString with
    | Some b => Some (acc, b)
    | None => extend
    end
  else extend.
Proof. reflexivity. Qed.

Lemma first_group_app (a b rest acc : string) :
  free_of [","%char; PyStr.newline] a = true ->
  free_of [";"%char; PyStr.newline] b = true ->
  Re.at_terminator rest = true ->
  Re.first_group (String.append a (String "," (String.append b rest))) acc =
  Some (String.append acc a, b).
Proof.
  revert acc. induction a as [|c a IH]; intros acc Ha Hb Hrest.
  - rewrite append_nil_l, append_nil_r, first_group_unfold. cbv zeta.
    change (Ascii.eqb "," ",") with true. cbv iota.
    rewrite (second_group_app b rest EmptyString Hb Hrest), append_nil_l.
    reflexivity.
  - cbn [free_of] in Ha. apply andb_true_iff in Ha as [Hc Ha].
    apply negb_true_iff in Hc. cbn [existsb] in Hc.
    apply orb_false_iff in Hc as [Hcomma Hnl].
    apply orb_false_iff in Hnl as [Hnl _].
    rewrite append_cons_l, first_group_unfold. cbv zeta.
    rewrite Hcomma, Hnl. rewrite IH by assumption.
    rewrite append_cons_assoc. reflexivity.
Qed.

Lemma prefix_append (tag s : string) : String.prefix tag (String.append tag s) = true.
Proof.
  induction tag as [|c tag IH]; [destruct s; reflexivity|].
  rewrite append_cons_l. cbn [String.prefix].
  destruct (ascii_dec c c); [exact IH|contradiction].
Qed.

Lemma drop_append (tag s : string) :
  PyStr.drop (String.length tag) (String.append tag s) = s.
Proof.
  induction tag as [|c tag IH]; [destruct s; reflexivity|].
  rewrite append_cons_l. cbn [String.length PyStr.drop]. exact IH.
Qed.

Lemma search_skips (tag pre s : string) :
  tag_starts_within tag pre s = false ->
  Re.search tag (String.append pre s) = Re.search tag s.
Proof.
  induction pre as [|c pre IH]; intros H; [reflexivity|].
  cbn [tag_starts_within] in H. apply orb_false_iff in H as [Hhere Hrest].
  rewrite append_cons_l. cbn [Re.search]. unfold Re.match_here at 1.
  rewrite Hhere. apply IH, Hrest.
Qed.

Lemma search_tagged (tag pre a b rest : string) :
  free_of [","%char; PyStr.newline] a = true ->
  free_of [";"%char; PyStr.newline] b = true ->
  Re.at_terminator rest = true ->
  let fields := String.append tag (String.append a (String "," (String.append b rest))) in
  tag_starts_within tag pre fields = false ->
  Re.search tag (String.append pre fields) = Some (a, b).
Proof.
  intros Ha Hb Hrest fields Hpre.
  rewrite (search_skips _ _ _ Hpre). unfold fields.
  assert (Hhere : Re.match_here tag
            (String.append tag (String.append a (String "," (String.append b rest))))
            = Some (a, b)).
  { unfold Re.match_here. rewrite prefix_append, drop_append.
    apply (first_group_app a b rest EmptyString Ha Hb Hrest). }
  destruct (String.append tag _) eqn:E; cbn [Re.search]; rewrite Hhere; reflexivity.
Qed.

Lemma split_not_nil (sep : ascii) (s : string) : PyStr.split sep s <> [].
Proof.
  induction s as [|c s IH]; simpl; [discriminate|].
  destruct (Ascii.eqb c sep); [discriminate|].
  destruct (PyStr.split sep s); [contradiction|discriminate].
Qed.

Lemma rmap_length {X Y} (f : X -> result Y) (xs : list X) (ys : list Y) :
  rmap f xs = Ok ys -> length ys = length xs.
Proof.
  revert ys. induction xs as [|x xs IH]; intros ys; simpl.
  - intros [= <-]. reflexivity.
  - destruct (f x); simpl; [|discriminate].
    destruct (rmap f xs) as [zs|]; simpl; [|discriminate].
    intros [= <-]. simpl. f_equal. apply IH. reflexivity.
Qed.

Section Decoding.

Context (C : Collaborators).

(** X10. Where the tags are read from.  In a response in which the tag
    first occurs followed by a field without comma, a comma, and a field
    that runs up to a semicolon or the end of the response, the first
    group is the first field and the second group is the second field,
    whatever precedes the tag and whatever follows the terminator:
    [get_measurement_mode] takes the mode from the first field and the
    channels, in order, from the second; [get_response_format_and_mode]
    takes the format from the first and the mode from the second. *)
Theorem decode_reads_tagged_fields (pre a b rest : string) :
  free_of [","%char; PyStr.newline] a = true ->
  free_of [";"%char; PyStr.newline] b = true ->
  Re.at_terminator rest = true ->
  (forall m chs,
     tag_starts_within "MM" pre
       (String.append "MM" (String.append a (String "," (String.append b rest)))) = false ->
     PyStr.int a = Ok m -> MM_Mode C m = true ->
     rmap PyStr.int (PyStr.split "," b) = Ok chs ->
     decode_measurement_mode C
       (String.append pre
          (String.append "MM" (String.append a (String "," (String.append b rest)))))
     = Ok (mkMeasurementMode m chs)) /\
  (forall f m,
     tag_starts_within "FMT" pre
       (String.append "FMT" (String.append a (String "," (String.append b rest)))) = false ->
     PyStr.int a = Ok f -> FMT_Format C f = true ->
     PyStr.int b = Ok m -> FMT_Mode C m = true ->
     decode_format_and_mode C
       (String.append pre
          (String.append "FMT" (String.append a (String "," (String.append b rest)))))
     = Ok (mkFormatAndMode f m)).
Proof.
  intros Ha Hb Hrest. split.
  - intros m chs Hpre Hint Hmem Hchs. unfold decode_measurement_mode.
    rewrite (search_tagged "MM" pre a b rest Ha Hb Hrest Hpre).
    rewrite Hint. cbn [rbind]. unfold enum_of. rewrite Hmem. cbn [rbind].
    rewrite Hchs. reflexivity.
  - intros f m Hpre Hf Hfm Hm Hmm. unfold decode_format_and_mode.
    rewrite (search_tagged "FMT" pre a b rest Ha Hb Hrest Hpre).
    rewrite Hf. cbn [rbind]. unfold enum_of. rewrite Hfm. cbn [rbind].
    rewrite Hm. cbn [rbind]. rewrite Hmm. reflexivity.
Qed.

(** X11. A measurement mode that [get_measurement_mode] returns lists at
    least one channel: a response whose mode has no channel field is never
    decoded into a mode with an empty channel list. *)
Theorem measurement_mode_has_channels (w : World C) (mode : MeasurementMode) :
  (get_measurement_mode C w).1 = Ok mode ->
  (1 <= length (mm_channels mode))%nat.
Proof.
  rewrite get_measurement_mode_run. simpl.
  destruct (settings_answer w) as [response|e]; simpl; [|discriminate].
  unfold decode_measurement_mode.
  destruct (Re.search "MM" response) as [[a b]|]; [|discriminate].
  destruct (PyStr.int a) as [n|]; simpl; [|discriminate].
  destruct (enum_of (MM_Mode C) n) as [m|]; simpl; [|discriminate].
  destruct (rmap PyStr.int (PyStr.split "," b)) as [chs|] eqn:E; simpl; [|discriminate].
  intros [= <-]. simpl.
  apply rmap_length in E. rewrite E.
  pose proof (split_not_nil "," b) as Hne.
  destruct (PyStr.split "," b); [contradiction|simpl; lia].
Qed.

End Decoding.

(** ** The registry after several registrations *)

Section Registry.

Context (C : Collaborators) (B : Builders C).
Implicit Types (w : World C).
Local Open Scope list_scope.

Lemma last_cons_some {A} (x : A) (l : list A) :
  last (x :: l) = match last l with Some y => Some y | None => Some x end.
Proof. apply last_cons. Qed.

Lemma by_channel_after_add name m w b ch :
  add_submodule C name m (base w) = Ok b ->
  by_channel (add_module C name m w).2 !! ch =
  if bool_decide (ch ∈ channels m) then Some m else by_channel w !! ch.
Proof.
  intros Hb. rewrite add_module_run, Hb. simpl.
  destruct (bool_decide (ch ∈ channels m)) eqn:E.
  - apply bool_decide_eq_true in E. apply register_channels_in, E.
  - apply bool_decide_eq_false in E. apply register_channels_out, E.
Qed.

(** X12. After a sequence of registrations that were all accepted, a
    channel resolves to the last module of the sequence that owns it, and
    to what it resolved to before if no module of the sequence owns it;
    the list of a kind is the former list followed by the modules of that
    kind in the order of registration. *)
Theorem registry_after_registrations (ms : list B1500Module) w w' :
  registered ms w = Some w' ->
  (forall ch,
     by_channel w' !! ch =
     match last_owner ch ms with
     | Some m => Some m
     | None => by_channel w !! ch
     end) /\
  (forall k,
     default [] (by_kind w' !! k) =
     default [] (by_kind w !! k) ++
     filter (fun m => bool_decide (MODULE_KIND m = k)) ms).
Proof.
  revert w. induction ms as [|m ms IH]; intros w Hreg.
  - injection Hreg as <-. split; intros; [reflexivity|].
    rewrite app_nil_r. reflexivity.
  - cbn [registered] in Hreg.
    destruct (add_submodule C (short_name m) m (base w)) as [b|e] eqn:Hb.
    2:{ rewrite add_module_run, Hb in Hreg. discriminate Hreg. }
    pose proof (fun ch => by_channel_after_add (short_name m) m w b ch Hb) as Hch.
    assert (Hkind : forall k,
              default [] (by_kind (add_module C (short_name m) m w).2 !! k) =
              default [] (by_kind w !! k) ++
              (if bool_decide (MODULE_KIND m = k) then [m] else [])).
    { intros k. rewrite add_module_run, Hb. simpl.
      destruct (bool_decide (MODULE_KIND m = k)) eqn:E.
      - apply bool_decide_eq_true in E. subst k.
        rewrite lookup_insert_eq. reflexivity.
      - apply bool_decide_eq_false in E.
        rewrite lookup_insert_ne by exact E. rewrite app_nil_r. reflexivity. }
    destruct (add_module C (short_name m) m w) as [[[]|e] w1] eqn:Hadd;
      [|discriminate].
    simpl in Hch, Hkind.
    destruct (IH w1 Hreg) as (IHch & IHkind). split.
    + intros ch. rewrite IHch, Hch. unfold last_owner.
      rewrite filter_cons.
      destruct (decide (bool_decide (ch ∈ channels m))) as [Hin|Hout].
      * rewrite last_cons_some.
        apply Is_true_true in Hin. rewrite Hin.
        destruct (last (filter _ ms)); reflexivity.
      * apply Is_true_false in Hout. rewrite Hout. reflexivity.
    + intros k. rewrite IHkind, Hkind, <- app_assoc. f_equal.
      rewrite filter_cons.
      destruct (decide (bool_decide (MODULE_KIND m = k))) as [Hin|Hout].
      * apply Is_true_true in Hin. rewrite Hin. reflexivity.
      * apply Is_true_false in Hout. rewrite Hout. reflexivity.
Qed.

(** ** Discovery of the modules *)

Lemma add_population_app (pre rest : list (Z * string)) w :
  add_population C B (pre ++ rest) w =
  match add_population C B pre w with
  | (Ok _, w1) => add_population C B rest w1
  | (Raise e, w1) => (Raise e, w1)
  end.
Proof.
  revert w. induction pre as [|[slot model] pre IH]; intros w; [reflexivity|].
  simpl. unfold bind.
  destruct (from_model_name C B model slot w) as [[m|e] w0]; [|reflexivity].
  destruct (add_module C (short_name m) m w0) as [[[]|e] w1]; [|reflexivity].
  apply IH.
Qed.

(** X13. Discovery stops at the first model that is not one of [B1517A],
    [B1520A], [B1530A]: [_find_modules] raises [NotImplementedError], the
    modules of the slots before it stay registered, and no module of a
    later slot is created or registered. *)
Theorem discovery_stops_at_unsupported_model w r pre slot model rest w1 :
  (visa_ask C (unt_query_module_info B) (timeout w) (dev w)).1 = Ok r ->
  parse_module_query_response B r = Ok (pre ++ (slot, model) :: rest) ->
  model <> "B1517A" -> model <> "B1520A" -> model <> "B1530A" ->
  add_population C B pre (after_ask (unt_query_module_info B) w) = (Ok tt, w1) ->
  _find_modules C B w =
    (Raise (NotImplementedError "Module type not yet supported."), w1).
Proof.
  intros Hask Hparse H1 H2 H3 Hpre.
  unfold _find_modules, bind, lift. rewrite ask_run, Hask, Hparse.
  rewrite add_population_app, Hpre. simpl. unfold bind, from_model_name.
  apply String.eqb_neq in H1, H2, H3. rewrite H1, H2, H3. reflexivity.
Qed.

End Registry.

(** ** Commands and queries of the mainframe *)

Section Commands.

Context (C : Collaborators) (B : Builders C).
Implicit Types (w : World C).
Local Open Scope list_scope.

(** A command method: encode, then [write]. *)
Lemma encoded_write_run (encoded : result string) w :
  bind C (lift C encoded) (fun msg => write C msg) w =
  match encoded with
  | Ok msg => write C msg w
  | Raise e => (Raise e, w)
  end.
Proof. unfold bind, lift. destruct encoded; reflexivity. Qed.

Lemma encoded_write_ok (encoded : result string) w :
  (bind C (lift C encoded) (fun msg => write C msg) w).1 = Ok tt ->
  exists msg,
    encoded = Ok msg /\
    log (bind C (lift C encoded) (fun msg => write C msg) w).2 =
      log w ++ [EvWrite msg; EvAsk (errx_query C None) (timeout w)].
Proof.
  rewrite encoded_write_run. destruct encoded as [msg|e]; [|discriminate].
  intros Hok. exists msg. split; [reflexivity|].
  apply (write_ok_inv C msg w Hok).
Qed.

(** X15. A coefficient that [int()] cannot convert, a NaN or an infinity,
    makes the three integration-time methods raise the error of [int()]
    ([ValueError] for NaN, [OverflowError] for an infinity) before the
    encoder is called: nothing is sent and the world is as before. *)
Theorem integration_time_unconvertible (x : float) (e : exn) w :
  PyNum.int_of_float x = Raise e ->
  use_nplc_for_high_speed_adc C B (Some (CoeffFloat x)) w = (Raise e, w) /\
  use_nplc_for_high_resolution_adc C B (Some (CoeffFloat x)) w = (Raise e, w) /\
  use_manual_mode_for_high_speed_adc C B (Some (CoeffFloat x)) w = (Raise e, w) /\
  PyNum.int_of_float nan = Raise (ValueError "cannot convert float NaN to integer") /\
  PyNum.int_of_float infinity = Raise OverflowError /\
  PyNum.int_of_float neg_infinity = Raise OverflowError.
Proof.
  intros Hx.
  unfold use_nplc_for_high_speed_adc, use_nplc_for_high_resolution_adc,
    use_manual_mode_for_high_speed_adc, _setup_integration_time, bind, lift.
  simpl. rewrite Hx. repeat split; vm_compute; reflexivity.
Qed.

(** X16. [self_calibration] sends one query, under the calibration timeout
    of 60 and not under the timeout of the session, and whatever the
    outcome (an answer, a timeout of the query, an answer that is not a
    number or not a calibration result) the timeout of the session and the
    registry are afterwards what they were.  Its result is the answer read
    as an integer and looked up in [CALResponse]. *)
Theorem self_calibration_traffic (slot : option Z) (msg : string) w :
  cal_query B slot = Ok msg ->
  log (self_calibration C B slot w).2 = log w ++ [EvAsk msg 60%float] /\
  same_instrument w (self_calibration C B slot w).2 /\
  (self_calibration C B slot w).1 =
    rbind (visa_ask C msg 60%float (dev w)).1 (fun response =>
    rbind (PyStr.int response) (enum_of (CALResponse B))).
Proof.
  intros Hmsg. unfold self_calibration, bind, lift. rewrite Hmsg.
  unfold with_timeout. rewrite ask_run. simpl.
  change calibration_time_out with 60%float.
  destruct (visa_ask C msg 60%float (dev w)).1 as [response|e]; simpl.
  - destruct (PyStr.int response) as [n|e]; simpl.
    + destruct (enum_of (CALResponse B) n); simpl;
        (split; [reflexivity|]; split; [|reflexivity]);
        unfold same_instrument; simpl; auto.
    + split; [reflexivity|]. split; [|reflexivity].
      unfold same_instrument; simpl; auto.
  - split; [reflexivity|]. split; [|reflexivity].
    unfold same_instrument; simpl; auto.
Qed.

(** X17. A command method that returns has been encoded by the message
    builder, has written exactly that message, and has polled the error
    queue exactly once after it; [reset] writes [*RST].  A query method
    such as [get_status] sends its query and does not poll the error
    queue. *)
Theorem command_traffic w :
  ((reset C w).1 = Ok tt ->
   log (reset C w).2 = log w ++ [EvWrite "*RST"; EvAsk (errx_query C None) (timeout w)]) /\
  (forall channels, (enable_channels C B channels w).1 = Ok tt ->
     exists msg, cn B channels = Ok msg /\
       log (enable_channels C B channels w).2 =
         log w ++ [EvWrite msg; EvAsk (errx_query C None) (timeout w)]) /\
  (forall channels, (disable_channels C B channels w).1 = Ok tt ->
     exists msg, cl B channels = Ok msg /\
       log (disable_channels C B channels w).2 =
         log w ++ [EvWrite msg; EvAsk (errx_query C None) (timeout w)]) /\
  (forall do_autozero, (_set_autozero C B do_autozero w).1 = Ok tt ->
     exists msg, az B do_autozero = Ok msg /\
       log (_set_autozero C B do_autozero w).2 =
         log w ++ [EvWrite msg; EvAsk (errx_query C None) (timeout w)]) /\
  ((clear_buffer_of_error_message C B w).1 = Ok tt ->
     exists msg, err_query B = Ok msg /\
       log (clear_buffer_of_error_message C B w).2 =
         log w ++ [EvWrite msg; EvAsk (errx_query C None) (timeout w)]) /\
  (forall chnum, (clear_timer_count C B chnum w).1 = Ok tt ->
     exists msg, tsr B chnum = Ok msg /\
       log (clear_timer_count C B chnum w).2 =
         log w ++ [EvWrite msg; EvAsk (errx_query C None) (timeout w)]) /\
  (forall enable channels, (enable_smu_filters C B enable channels w).1 = Ok tt ->
     exists msg, fl B enable channels = Ok msg /\
       log (enable_smu_filters C B enable channels w).2 =
         log w ++ [EvWrite msg; EvAsk (errx_query C None) (timeout w)]) /\
  (forall mode channels, (set_measurement_mode C mode channels w).1 = Ok tt ->
     exists msg, mm C mode channels = Ok msg /\
       log (set_measurement_mode C mode channels w).2 =
         log w ++ [EvWrite msg; EvAsk (errx_query C None) (timeout w)]) /\
  log (get_status C w).2 = log w ++ [EvAsk "*STB?" (timeout w)].
Proof.
  split; [intros Hok; apply (write_ok_inv C "*RST" w Hok)|].
  repeat split; intros; try (apply encoded_write_ok; assumption).
  unfold get_status, bind, lift. rewrite ask_run.
  destruct (visa_ask C "*STB?" (timeout w) (dev w)).1; reflexivity.
Qed.

End Commands.

(** ** Display by file extension *)

Section DisplayAuto.

Import Display.

Lemma length_append (s1 s2 : string) :
  String.length (String.append s1 s2) = (String.length s1 + String.length s2)%nat.
Proof.
  induction s1 as [|c s1 IH]; [reflexivity|].
  rewrite append_cons_l. cbn [String.length]. rewrite IH. reflexivity.
Qed.

Lemma append_assoc (s1 s2 s3 : string) :
  String.append (String.append s1 s2) s3 = String.append s1 (String.append s2 s3).
Proof.
  induction s1 as [|c s1 IH]; [reflexivity|].
  rewrite !append_cons_l, IH. reflexivity.
Qed.

Lemma rfind_from_app (c : ascii) (s1 s2 : string) (i last : Z) :
  rfind_from c (String.append s1 s2) i last =
  rfind_from c s2 (i + Z.of_nat (String.length s1)) (rfind_from c s1 i last).
Proof.
  revert i last. induction s1 as [|a s1 IH]; intros i last.
  - rewrite append_nil_l. cbn [String.length rfind_from]. f_equal. lia.
  - rewrite append_cons_l. cbn [String.length rfind_from]. rewrite IH.
    f_equal. lia.
Qed.

Lemma rfind_from_free (c : ascii) (s : string) (i last : Z) :
  free_of [c] s = true -> rfind_from c s i last = last.
Proof.
  revert i last. induction s as [|a s IH]; intros i last H; [reflexivity|].
  cbn [free_of existsb] in H. apply andb_true_iff in H as [Ha H].
  apply negb_true_iff, orb_false_iff in Ha as [Ha _].
  cbn [rfind_from]. rewrite Ha. apply IH, H.
Qed.

Lemma rfind_from_bounds (c : ascii) (s : string) (i last : Z) :
  last < i ->
  last <= rfind_from c s i last < i + Z.of_nat (String.length s).
Proof.
  revert i last. induction s as [|a s IH]; intros i last H.
  - cbn [rfind_from String.length]. lia.
  - cbn [rfind_from String.length].
    destruct (Ascii.eqb a c).
    + specialize (IH (i + 1) i ltac:(lia)). lia.
    + specialize (IH (i + 1) last ltac:(lia)). lia.
Qed.

Lemma free_of_weaken (c : ascii) (cs : list ascii) (s : string) :
  In c cs -> free_of cs s = true -> free_of [c] s = true.
Proof.
  intros Hin. induction s as [|a s IH]; [reflexivity|].
  cbn [free_of]. intros H. apply andb_true_iff in H as [Ha H].
  rewrite (IH H), andb_true_r. cbn [existsb]. rewrite orb_false_r.
  apply negb_true_iff in Ha. apply negb_true_iff.
  destruct (Ascii.eqb a c) eqn:E; [|reflexivity].
  rewrite <- Ha. symmetry. apply existsb_exists. exists c. auto.
Qed.

Lemma free_of_app (cs : list ascii) (s1 s2 : string) :
  free_of cs s1 = true -> free_of cs s2 = true ->
  free_of cs (String.append s1 s2) = true.
Proof.
  intros H1 H2. induction s1 as [|a s1 IH]; [exact H2|].
  rewrite append_cons_l. cbn [free_of] in *.
  apply andb_true_iff in H1 as [Ha H1]. rewrite Ha, (IH H1). reflexivity.
Qed.

Lemma drop_app_le (k : nat) (s1 s2 : string) :
  (k <= String.length s1)%nat ->
  PyStr.drop k (String.append s1 s2) = String.append (PyStr.drop k s1) s2 /\
  String.length (PyStr.drop k s1) = (String.length s1 - k)%nat.
Proof.
  revert s1. induction k as [|k IH]; intros s1 Hk.
  - destruct s1; cbn [PyStr.drop]; split; try reflexivity; lia.
  - destruct s1 as [|a s1]; cbn [String.length] in Hk; [lia|].
    rewrite append_cons_l. cbn [PyStr.drop String.length]. apply IH. lia.
Qed.

Lemma some_non_dot_app (s1 : string) (a : ascii) (r : string) (n : nat) :
  Ascii.eqb a "." = false -> (String.length s1 < n)%nat ->
  some_non_dot (String.append s1 (String a r)) n = true.
Proof.
  intros Ha. revert n. induction s1 as [|c s1 IH]; intros n Hn.
  - rewrite append_nil_l. destruct n; [cbn [String.length] in Hn; lia|].
    cbn [some_non_dot]. rewrite Ha. reflexivity.
  - rewrite append_cons_l. destruct n; [lia|].
    cbn [some_non_dot]. cbn [String.length] in Hn.
    rewrite IH by lia. apply orb_true_r.
Qed.

Lemma substring_append (s1 s2 : string) :
  String.substring 0 (String.length s1) (String.append s1 s2) = s1.
Proof.
  induction s1 as [|c s1 IH]; [destruct s2; reflexivity|].
  rewrite append_cons_l. cbn [String.length String.substring]. rewrite IH.
  reflexivity.
Qed.

(** X18. For a path whose file name has a character that is not a dot
    before its last dot, [splitext] cuts at that last dot, whatever dots
    and slashes the directory part contains; with no [file_type] given,
    [display_auto] then displays the contents as Javascript when the
    extension is [js] in any mix of upper and lower case, inside a style
    element when it is [css], and as plain HTML otherwise. *)
Theorem display_auto_by_extension
        (resource_string : string -> result string)
        (dir : string) (a : ascii) (post e contents : string) :
  Ascii.eqb a "." = false ->
  free_of ["/"%char] (String a post) = true ->
  free_of ["."%char; "/"%char] e = true ->
  let path := String.append dir (String.append (String a post) (String "." e)) in
  resource_string path = Ok contents ->
  splitext path = (String.append dir (String a post), String "." e) /\
  display_auto resource_string path None =
    Ok (if String.eqb (lower e) "js" then Javascript contents
        else if String.eqb (lower e) "css"
             then HTML (String.append "<style>" (String.append contents "</style>"))
             else HTML contents).
Proof.
  intros Ha Hname He path Hres.
  assert (Hedot : free_of ["."%char] e = true).
  { apply (free_of_weaken "." ["."%char; "/"%char]); [left; reflexivity|exact He]. }
  assert (Heslash : free_of ["/"%char] e = true).
  { apply (free_of_weaken "/" ["."%char; "/"%char]); [right; left; reflexivity|exact He]. }
  set (name := String a post) in *.
  assert (Hlen : (1 <= String.length name)%nat) by (unfold name; cbn [String.length]; lia).
  pose proof (rfind_from_bounds "/" dir 0 (-1) ltac:(lia)) as Hsd.
  set (sd := rfind_from "/" dir 0 (-1)) in *.
  assert (Hsep : rfind "/" path = sd).
  { unfold rfind, path. rewrite rfind_from_app. fold sd.
    apply rfind_from_free. apply free_of_app; [exact Hname|].
    cbn [free_of existsb]. rewrite Heslash. reflexivity. }
  assert (Hdot : rfind "." path =
                 Z.of_nat (String.length (String.append dir name))).
  { unfold rfind, path. rewrite <- append_assoc, rfind_from_app.
    cbn [rfind_from]. change (Ascii.eqb "." ".") with true. cbv iota.
    rewrite rfind_from_free by exact Hedot. lia. }
  assert (Hsplit : splitext path = (String.append dir name, String "." e)).
  { unfold splitext. rewrite Hsep, Hdot, length_append.
    assert (Hlt : (sd <? Z.of_nat (String.length dir + String.length name)) = true)
      by (apply Z.ltb_lt; lia).
    rewrite Hlt.
    destruct (drop_app_le (Z.to_nat (sd + 1)) dir
                (String.append name (String "." e)) ltac:(lia)) as (Hdrop & Hdl).
    fold path in Hdrop. rewrite Hdrop. unfold name at 1.
    rewrite append_cons_l, some_non_dot_app by (try exact Ha; lia).
    rewrite Nat2Z.id. f_equal.
    - unfold path. rewrite <- append_assoc, <- length_append.
      apply substring_append.
    - unfold path. rewrite <- append_assoc, <- length_append.
      apply drop_append. }
  split; [exact Hsplit|].
  unfold display_auto. rewrite Hres. cbn [rbind]. rewrite Hsplit.
  cbn [snd lower]. change (lower_char ".") with "."%char.
  change (String "." (lower e) =? ".js")%string with (lower e =? "js")%string.
  change (String "." (lower e) =? ".css")%string with (lower e =? "css")%string.
  destruct (lower e =? "js")%string; [reflexivity|].
  destruct (lower e =? "css")%string; reflexivity.
Qed.

End DisplayAuto.

(** * The further properties on the test benches *)

Section MoreOnTheBench.

Import Bench.
Local Open Scope list_scope.

Lemma failed_sweep_keeps_data_witness :
  let w := lab "TM1;FMT5,0;MM2,1,2" (Raise (VisaIOError "timeout")) in
  (get_raw bench w).1 = Raise (VisaIOError "timeout") /\
  same_sweep_data w (get_raw bench w).2.
Proof.
  cbv zeta.
  assert (H : (get_raw bench (lab "TM1;FMT5,0;MM2,1,2" (Raise (VisaIOError "timeout")))).1
              = Raise (VisaIOError "timeout")) by (vm_compute; reflexivity).
  split; [exact H|]. exact (failed_sweep_keeps_data bench _ _ H).
Defined.


Lemma sweep_source_failures_witness :
  let w7 := lab "TM1;FMT5,0;MM2,7,1" (Ok nine_readings) in
  let m := mkModule "smu1" "B1500_smu1" 1 [1] SMU true (-2) 0 in
  let w0 := world_with [m] (instrument "TM1;FMT5,0;MM2,1,2" [] (Ok nine_readings)) in
  ((get_raw bench w7).1 = Raise (KeyError 7) /\
   log (get_raw bench w7).2 = [EvAsk "*LRN? 31" 5%float]) /\
  ((get_raw bench w0).1 = Raise ZeroDivisionError /\
   log (get_raw bench w0).2 = [EvAsk "*LRN? 31" 5%float; EvAsk "*LRN? 33" 5%float]).
Proof.
  cbv zeta. split.
  - refine (proj1 (sweep_source_failures bench
                     (lab "TM1;FMT5,0;MM2,7,1" (Ok nine_readings))
                     (mkMeasurementMode 2 [7; 1]) 7 1 _ _) _).
    + vm_compute. reflexivity.
    + reflexivity.
    + vm_compute. reflexivity.
  - destruct (proj2 (sweep_source_failures bench
                     (world_with
                        [mkModule "smu1" "B1500_smu1" 1 [1] SMU true (-2) 0]
                        (instrument "TM1;FMT5,0;MM2,1,2" [] (Ok nine_readings)))
                     (mkMeasurementMode 2 [1; 2]) 1 2
                     ltac:(vm_compute; reflexivity) eq_refl)
                  (mkModule "smu1" "B1500_smu1" 1 [1] SMU true (-2) 0)
                  ltac:(vm_compute; reflexivity) eq_refl ltac:(reflexivity) eq_refl)
      as (Hres & Hlog).
    split; [rewrite Hres; vm_compute; reflexivity|exact Hlog].
Defined.

Lemma unreadable_format_stops_sweep_witness :
  let w := lab "TM1;MM2,1,2" (Ok nine_readings) in
  (get_raw bench w).1 = Raise (ValueError "Measurement Mode (FMT) not found.") /\
  log (get_raw bench w).2 =
    [EvAsk "*LRN? 31" 5%float; EvAsk "*LRN? 33" 5%float;
     EvAsk "*LRN? 33" 5%float; EvAsk "*LRN? 31" 5%float].
Proof.
  cbv zeta.
  refine (unreadable_format_stops_sweep bench (lab "TM1;MM2,1,2" (Ok nine_readings))
            (smu 1 (-2) true, 0.01%float, 100, 1536%float) _ _ _);
    vm_compute; reflexivity.
Defined.

Lemma failed_format_write_skips_sweep_witness :
  let w := world_with sweep_modules
             (instrument "TM1;FMT5,0;MM2,1,2" ["+305,Excess current"] (Ok nine_readings)) in
  let w2 := (prepare w).2 in
  (get_raw bench w).1 =
    Raise (RuntimeError "While setting this parameter received error: +305,Excess current") /\
  exists polls1 polls2,
    log (get_raw bench w).2 =
      log w2 ++ (EvWrite "FMT 1,1" :: polls1) ++ (EvWrite "FMT 5,0" :: polls2) /\
    (polls1 = [] \/ polls1 = [EvAsk "ERRX?" 5%float]) /\
    (polls2 = [] \/ polls2 = [EvAsk "ERRX?" 5%float]) /\
    (forall t', ~ In (EvAsk "XE" t')
                     ((EvWrite "FMT 1,1" :: polls1) ++ (EvWrite "FMT 5,0" :: polls2))).
Proof.
  cbv zeta.
  destruct (failed_format_write_skips_sweep bench
              (world_with sweep_modules
                 (instrument "TM1;FMT5,0;MM2,1,2" ["+305,Excess current"]
                               (Ok nine_readings)))
              1536%float (mkFormatAndMode 5 0)
              (RuntimeError "While setting this parameter received error: +305,Excess current"))
    as (polls1 & polls2 & Hlog & Hp1 & Hp2 & Hno & Herr).
  - vm_compute. congruence.
  - vm_compute. reflexivity.
  - vm_compute. reflexivity.
  - split.
    + apply Herr. vm_compute. reflexivity.
    + exists polls1, polls2. split; [exact Hlog|]. split; [exact Hp1|].
      split; [exact Hp2|exact Hno].
Defined.

Lemma failed_restore_masks_sweep_witness :
  let w := world_with sweep_modules
             (instrument "TM1;FMT5,0;MM2,1,2" [no_error; "+305,Excess current"]
                           (Ok nine_readings)) in
  (get_raw bench w).1 =
    Raise (RuntimeError "While setting this parameter received error: +305,Excess current") /\
  same_sweep_data w (get_raw bench w).2.
Proof.
  cbv zeta.
  refine (failed_restore_masks_sweep bench
            (world_with sweep_modules
               (instrument "TM1;FMT5,0;MM2,1,2" [no_error; "+305,Excess current"]
                             (Ok nine_readings)))
            1536%float (mkFormatAndMode 5 0)
            (RuntimeError "While setting this parameter received error: +305,Excess current")
            _ _);
    vm_compute; reflexivity.
Defined.

Lemma decode_reads_tagged_fields_witness :
  decode_measurement_mode bench "TM1;AV1,0;MM2,1,2;FMT5,0"
    = Ok (mkMeasurementMode 2 [1; 2]) /\
  decode_format_and_mode bench "TM1;FMT5,0;MM2,1,2"
    = Ok (mkFormatAndMode 5 0).
Proof.
  split.
  - refine (proj1 (decode_reads_tagged_fields bench "TM1;AV1,0;" "2" "1,2" ";FMT5,0"
                     _ _ _) 2 [1; 2] _ _ _ _); vm_compute; reflexivity.
  - refine (proj2 (decode_reads_tagged_fields bench "TM1;" "5" "0" ";MM2,1,2"
                     _ _ _) 5 0 _ _ _ _ _); vm_compute; reflexivity.
Defined.

Lemma measurement_mode_has_channels_witness :
  let w := lab "TM1;FMT5,0;MM2,1,2" (Ok nine_readings) in
  (get_measurement_mode bench w).1 = Ok (mkMeasurementMode 2 [1; 2]) /\
  (1 <= length [1; 2])%nat.
Proof.
  cbv zeta.
  assert (H : (get_measurement_mode bench
                 (lab "TM1;FMT5,0;MM2,1,2" (Ok nine_readings))).1
              = Ok (mkMeasurementMode 2 [1; 2])) by (vm_compute; reflexivity).
  split; [exact H|]. exact (measurement_mode_has_channels bench _ _ H).
Defined.

Lemma registry_after_registrations_witness :
  let d := instrument "" [] (Ok "") in
  let w' := world_with (sweep_modules ++ [cmu1]) d in
  by_channel w' !! 1 = Some cmu1 /\
  by_channel w' !! 2 = Some (smu 2 4 false) /\
  default [] (by_kind w' !! SMU) = sweep_modules.
Proof.
  cbv zeta.
  destruct (registry_after_registrations bench (sweep_modules ++ [cmu1])
              (empty_world (instrument "" [] (Ok "")))
              (world_with (sweep_modules ++ [cmu1]) (instrument "" [] (Ok ""))))
    as (Hch & Hkind).
  - reflexivity.
  - split; [rewrite Hch; vm_compute; reflexivity|].
    split; [rewrite Hch; vm_compute; reflexivity|].
    rewrite Hkind. vm_compute. reflexivity.
Defined.

Lemma integration_time_unconvertible_witness :
  let w := Rig.fresh [Rig.quiet] in
  use_manual_mode_for_high_speed_adc Rig.rig Rig.builders (Some (CoeffFloat nan)) w =
    (Raise (ValueError "cannot convert float NaN to integer"), w) /\
  use_nplc_for_high_speed_adc Rig.rig Rig.builders (Some (CoeffFloat infinity)) w =
    (Raise OverflowError, w).
Proof.
  cbv zeta. split.
  - refine (proj1 (proj2 (proj2 (integration_time_unconvertible Rig.rig Rig.builders
                                   nan _ (Rig.fresh [Rig.quiet]) _)))).
    vm_compute. reflexivity.
  - refine (proj1 (integration_time_unconvertible Rig.rig Rig.builders
                     infinity _ (Rig.fresh [Rig.quiet]) _)).
    vm_compute. reflexivity.
Defined.

Lemma self_calibration_traffic_witness :
  let w := Rig.fresh [("*CAL? 3", Ok "0")] in
  log (self_calibration Rig.rig Rig.builders (Some 3) w).2 = [EvAsk "*CAL? 3" 60%float] /\
  timeout (self_calibration Rig.rig Rig.builders (Some 3) w).2 = 5%float /\
  (self_calibration Rig.rig Rig.builders (Some 3) w).1 = Ok 0.
Proof.
  cbv zeta.
  destruct (self_calibration_traffic Rig.rig Rig.builders (Some 3) "*CAL? 3"
              (Rig.fresh [("*CAL? 3", Ok "0")])) as (Hlog & (Ht & _) & Hres).
  - vm_compute. reflexivity.
  - split; [exact Hlog|]. split; [rewrite Ht; reflexivity|].
    rewrite Hres. vm_compute. reflexivity.
Defined.

Lemma discovery_stops_at_unsupported_model_witness :
  let w := Rig.fresh [("UNT? 0", Ok "B1517A,0;B9999X,0;B1520A,0"); Rig.quiet] in
  (_find_modules Rig.rig Rig.builders w).1 =
    Raise (NotImplementedError "Module type not yet supported.") /\
  by_channel (_find_modules Rig.rig Rig.builders w).2 !! 1 =
    Some (mkModule "smu1" "B1500_smu1" 1 [1] SMU false 1 50) /\
  by_channel (_find_modules Rig.rig Rig.builders w).2 !! 3 = None /\
  log (_find_modules Rig.rig Rig.builders w).2 =
    [EvAsk "UNT? 0" 5%float; EvWrite "AAD 1,1"; EvAsk "ERRX?" 5%float].
Proof.
  cbv zeta.
  rewrite (discovery_stops_at_unsupported_model Rig.rig Rig.builders
             (Rig.fresh [("UNT? 0", Ok "B1517A,0;B9999X,0;B1520A,0"); Rig.quiet])
             "B1517A,0;B9999X,0;B1520A,0" [(1, "B1517A")] 2 "B9999X" [(3, "B1520A")]
             (add_population Rig.rig Rig.builders [(1, "B1517A")]
                (after_ask "UNT? 0"
                   (Rig.fresh [("UNT? 0", Ok "B1517A,0;B9999X,0;B1520A,0");
                               Rig.quiet]))).2).
  - repeat split; vm_compute; reflexivity.
  - vm_compute. reflexivity.
  - vm_compute. reflexivity.
  - discriminate.
  - discriminate.
  - discriminate.
  - apply run_eq. vm_compute. reflexivity.
Defined.

Lemma display_auto_by_extension_witness :
  Display.splitext "widgets/v1.2/toc.JS" = ("widgets/v1.2/toc", ".JS") /\
  Display.display_auto (fun _ => Ok "body") "widgets/v1.2/toc.JS" None =
    Ok (Display.Javascript "body").
Proof.
  refine (display_auto_by_extension (fun _ => Ok "body") "widgets/v1.2/" "t" "oc" "JS"
            "body" _ _ _ _); reflexivity.
Defined.

End MoreOnTheBench.
